(** * Real-time network traffic dashboard: model and properties

    The dashboard (network_dashboard.py) keeps one capture engine per
    Streamlit session, polls it on every script run and hands the frame it
    gets to the chart strategies of visualizations.py.  The script runs are
    modelled as a small state-and-error monad over a [World]; the UI calls
    and the calls into the absent [packet_processor] module are recorded as
    events, in program order. *)

From Stdlib Require Import QArith Lqa ZArith List Lia Bool Sorted Permutation.
From stdpp Require Import gmap strings list.
Import ListNotations.

Close Scope Q_scope.
Local Open Scope string_scope.
Local Open Scope list_scope.
Local Open Scope nat_scope.

(** ** Instants

    [time.time()] yields seconds since the epoch as a float; instants and
    durations are rationals here. *)

Definition Instant := Q.

(** ** The record store *)

Module RecordStore.

Inductive Protocol := TCP | UDP | ICMP | OTHER.

Record PacketRecord := {
  timestamp : Instant;
  source_address : string;
  destination_address : string;
  protocol : Protocol;
  size_bytes : nat
}.

(** Modelled from the spec: the bounded record store of the absent
    [packet_processor] module.  It owns an ordered sequence of records,
    oldest first, and a capacity fixed at construction. *)
Record Store := {
  capacity : nat;
  records : list PacketRecord
}.

(** Modelled from the spec: the store is created empty with its capacity;
    the constructor of the absent store. *)
Definition new (cap : nat) : Store :=
  {| capacity := cap; records := [] |}.

(** Modelled from the spec: [append] of the absent store.  The record is
    added at the tail and, "when capacity is exceeded, the oldest record is
    evicted". *)
Definition append (r : PacketRecord) (s : Store) : Store :=
  let grown := records s ++ [r] in
  {| capacity := capacity s;
     records := if capacity s <? length grown then tl grown else grown |}.

(** Modelled from the spec: [snapshot] of the absent store, a copy of the
    retained records, oldest first. *)
Definition snapshot (s : Store) : list PacketRecord := records s.

(** Modelled from the spec: [count] of the absent store. *)
Definition count (s : Store) : nat := length (snapshot s).

(** The capture loop's writes, in arrival order. *)
Definition appends (rs : list PacketRecord) (s : Store) : Store :=
  fold_left (fun acc r => append r acc) rs s.

End RecordStore.

(** The last [n] elements of a list, in their order ([df.tail(n)] on rows). *)
Definition lastn {A} (n : nat) (l : list A) : list A :=
  skipn (length l - n) l.

(** ** Data frames

    The frame handed over by [processor.get_dataframe()] is a table with (at
    least) the columns [timestamp], [source], [destination], [protocol] and
    [size]; any further columns are kept in [extra].  A [timestamp] cell is
    either already a [datetime64] value (nanoseconds since the epoch) or an
    object that [pd.to_datetime] still has to convert, given by its text. *)

Inductive Stamp :=
| Raw (text : string)
| Datetime (ns : Z).

Record Row := {
  timestamp : Stamp;
  source : string;
  destination : string;
  protocol : string;
  size : nat;
  extra : list (string * string)
}.

Definition DataFrame := list Row.

(** [df[['timestamp', 'source', 'destination', 'protocol', 'size']]] *)
Definition select_columns (r : Row) : Row :=
  {| timestamp := timestamp r; source := source r;
     destination := destination r; protocol := protocol r;
     size := size r; extra := [] |}.

(** [df['timestamp'] = column] *)
Definition set_timestamp (r : Row) (t : Stamp) : Row :=
  {| timestamp := t; source := source r; destination := destination r;
     protocol := protocol r; size := size r; extra := extra r |}.

(** *** Counting

    [Series.value_counts()]: one entry per distinct value with its number
    of occurrences, most frequent first, equal counts in order of first
    appearance. *)

Fixpoint bump (x : string) (acc : list (string * nat)) : list (string * nat) :=
  match acc with
  | [] => [(x, 1)]
  | (y, n) :: rest =>
      if String.eqb x y then (y, S n) :: rest else (y, n) :: bump x rest
  end.

Definition tally (l : list string) : list (string * nat) :=
  fold_left (fun acc x => bump x acc) l [].

Fixpoint insert_desc (e : string * nat) (l : list (string * nat))
  : list (string * nat) :=
  match l with
  | [] => [e]
  | f :: rest =>
      if snd f <=? snd e then e :: f :: rest else f :: insert_desc e rest
  end.

Definition value_counts (l : list string) : list (string * nat) :=
  fold_right insert_desc [] (tally l).

(** [df.groupby(keys).size()]: the number of rows per key, keys ascending. *)
Fixpoint bump_sorted (k : Z) (acc : list (Z * nat)) : list (Z * nat) :=
  match acc with
  | [] => [(k, 1)]
  | (j, n) :: rest =>
      if (k <? j)%Z then (k, 1) :: (j, n) :: rest
      else if (k =? j)%Z then (j, S n) :: rest
      else (j, n) :: bump_sorted k rest
  end.

Definition groupby_size (keys : list Z) : list (Z * nat) :=
  fold_left (fun acc k => bump_sorted k acc) keys [].

(** [Series.dt.floor('S')] on nanosecond instants. *)
Definition floor_S (ns : Z) : Z := (ns - ns mod 1000000000)%Z.

(** ** Figures and page elements *)

Inductive Figure :=
| Pie (values : list nat) (names : list string) (title : string)
| Line (x : list Z) (y : list nat) (title : string)
| Bar (x : list string) (y : list nat) (title : string).

Inductive MetricValue :=
| MCount (n : nat)
| MSeconds2f (d : Q).   (* f"{d:.2f}s" *)

(** The Streamlit calls of the two scripts, as elements put on the page. *)
Inductive UiEvent :=
| SetPageConfig (page_title layout : string)
| Title (s : string)
| Columns (n : nat)
| Warning (s : string)
| Metric (column : nat) (label : string) (value : MetricValue)
| WriteFrame (label : string) (df : DataFrame)
| Info (s : string)
| PlotlyChart (fig : Figure) (use_container_width : bool)
| Subheader (s : string)
| DataframeTable (rows : DataFrame) (use_container_width : bool)
| Button (label : string)
| Sleep (seconds : nat).

Definition is_warning (e : UiEvent) : bool :=
  match e with Warning _ => true | _ => false end.

(** ** The world of a session *)

(** Python values passed as call arguments. *)
Inductive PyVal :=
| PyNone
| PyInt (z : Z)
| PyStr (s : string).

(** A [PacketProcessor] instance, known by its object identity. *)
Record Processor := { obj_id : nat }.

(** What a thread runs: [capture_packets] closes over its processor. *)
Inductive ThreadTarget :=
| capture_packets_of (processor : Processor).

Record Thread := {
  target : ThreadTarget;
  daemon : bool
}.

(** A constructor call [PacketProcessor(args)] and the object it made. *)
Record Construction := {
  ctor_args : list PyVal;
  made : Processor
}.

(** Values kept in [st.session_state]. *)
Inductive SVal :=
| VProcessor (p : option Processor)
| VInstant (t : Instant).

Inductive Exn :=
| AttributeError (name : string)
| TypeError
| NotImplementedError.

(** How a script run (or a part of it) ends: it returns, it is cut short
    by [st.rerun()], or it raises. *)
Inductive Outcome (A : Type) :=
| Returned (a : A)
| Rerun
| Raised (e : Exn).
Arguments Returned {A} a.
Arguments Rerun {A}.
Arguments Raised {A} e.

Record World := {
  session_state : gmap string SVal;
  constructions : list Construction;   (* processors built so far *)
  threads : list Thread;               (* threads started so far *)
  clock_reads : nat;                   (* calls of time.time() so far *)
  polls : nat;                         (* calls of get_dataframe() so far *)
  presses : nat;                       (* st.button() calls so far *)
  page : list UiEvent                  (* elements of the current run *)
}.

(** What the session receives from outside: the readings of the wall
    clock, the frames the processor returns, whether the button was
    pressed, the environment variables, and pandas' datetime parser. *)
Record Env := {
  clock : nat -> Instant;
  frame_at : Processor -> nat -> DataFrame;
  pressed : nat -> bool;
  environ : gmap string string;
  parse_datetime : string -> Z
}.

Definition M (A : Type) : Type := World -> Outcome A * World.

#[local] Instance M_ret : MRet M := fun A a w => (Returned a, w).

#[local] Instance M_bind : MBind M := fun A B k c w =>
  match c w with
  | (Returned a, w') => k a w'
  | (Rerun, w') => (Rerun, w')
  | (Raised e, w') => (Raised e, w')
  end.

Definition raise {A} (e : Exn) : M A := fun w => (Raised e, w).

(** [st.rerun()] *)
Definition st_rerun {A} : M A := fun w => (Rerun, w).

(** A Streamlit call that puts an element on the page. *)
Definition st (e : UiEvent) : M unit := fun w =>
  (Returned tt,
   {| session_state := session_state w; constructions := constructions w;
      threads := threads w; clock_reads := clock_reads w; polls := polls w;
      presses := presses w; page := page w ++ [e] |}).

(** ['key' in st.session_state] *)
Definition session_contains (key : string) : M bool := fun w =>
  (Returned (bool_decide (is_Some (session_state w !! key))), w).

(** [st.session_state.key = v] *)
Definition session_set (key : string) (v : SVal) : M unit := fun w =>
  (Returned tt,
   {| session_state := <[key := v]> (session_state w);
      constructions := constructions w; threads := threads w;
      clock_reads := clock_reads w; polls := polls w;
      presses := presses w; page := page w |}).

(** [st.session_state.get(key, None)] *)
Definition session_get (key : string) : M (option SVal) := fun w =>
  (Returned (session_state w !! key), w).

(** [st.session_state.key]: raises [AttributeError] for a missing key. *)
Definition session_attr (key : string) : M SVal := fun w =>
  match session_state w !! key with
  | Some v => (Returned v, w)
  | None => (Raised (AttributeError key), w)
  end.

(** [PacketProcessor(args)]: a new object. *)
Definition new_PacketProcessor (args : list PyVal) : M Processor := fun w =>
  let p := {| obj_id := length (constructions w) |} in
  (Returned p,
   {| session_state := session_state w;
      constructions := constructions w ++ [{| ctor_args := args; made := p |}];
      threads := threads w; clock_reads := clock_reads w; polls := polls w;
      presses := presses w; page := page w |}).

(** [threading.Thread(target=..., daemon=...).start()] *)
Definition thread_start (t : ThreadTarget) (d : bool) : M unit := fun w =>
  (Returned tt,
   {| session_state := session_state w; constructions := constructions w;
      threads := threads w ++ [{| target := t; daemon := d |}];
      clock_reads := clock_reads w; polls := polls w;
      presses := presses w; page := page w |}).

Section Session.

Variable env : Env.

(** [time.time()] *)
Definition time_time : M Instant := fun w =>
  (Returned (clock env (clock_reads w)),
   {| session_state := session_state w; constructions := constructions w;
      threads := threads w; clock_reads := S (clock_reads w);
      polls := polls w; presses := presses w; page := page w |}).

(** [processor.get_dataframe()] *)
Definition get_dataframe (p : Processor) : M DataFrame := fun w =>
  (Returned (frame_at env p (polls w)),
   {| session_state := session_state w; constructions := constructions w;
      threads := threads w; clock_reads := clock_reads w;
      polls := S (polls w); presses := presses w; page := page w |}).

(** [st.button(label)] *)
Definition st_button (label : string) : M bool := fun w =>
  (Returned (pressed env (presses w)),
   {| session_state := session_state w; constructions := constructions w;
      threads := threads w; clock_reads := clock_reads w;
      polls := polls w; presses := S (presses w);
      page := page w ++ [Button label] |}).

(** *** visualizations.py *)

(** The instant [pd.to_datetime] makes of one cell, in nanoseconds: a
    [datetime64] value is kept, anything else is parsed. *)
Definition datetime_ns (t : Stamp) : Z :=
  match t with
  | Raw text => parse_datetime env text
  | Datetime ns => ns
  end.

(** [pd.to_datetime] on one cell. *)
Definition to_datetime (t : Stamp) : Stamp := Datetime (datetime_ns t).

(** The body of [ProtocolPieChart.render] up to the figure. *)
Definition protocol_pie (df : DataFrame) : Figure :=
  let protocol_counts := value_counts (map protocol df) in
  Pie (map snd protocol_counts) (map fst protocol_counts)
      "Protocol Distribution".

(** [df['timestamp'] = pd.to_datetime(df['timestamp'])] *)
Definition convert_timestamps (df : DataFrame) : DataFrame :=
  map (fun r => set_timestamp r (to_datetime (timestamp r))) df.

(** The rest of [PacketsTimelineChart.render], on the converted frame. *)
Definition packets_timeline (df : DataFrame) : Figure :=
  let df_grouped :=
    groupby_size (map (fun r => floor_S (datetime_ns (timestamp r))) df) in
  Line (map fst df_grouped) (map snd df_grouped) "Packets per Second".

(** The body of [TopSourceIPsBarChart.render] up to the figure. *)
Definition top_sources_bar (df : DataFrame) : Figure :=
  let top_sources := firstn 10 (value_counts (map source df)) in
  Bar (map fst top_sources) (map snd top_sources) "Top Source IP Addresses".

Inductive Strategy :=
| VisualizationStrategy
| ProtocolPieChart
| PacketsTimelineChart
| TopSourceIPsBarChart.

(** [strategy.render(df)].  The frame is a mutable object shared with the
    caller: the result is the frame as the call leaves it. *)
Definition render (s : Strategy) (df : DataFrame) : M DataFrame :=
  match s with
  | VisualizationStrategy => raise NotImplementedError
  | ProtocolPieChart =>
      st (PlotlyChart (protocol_pie df) true);;
      mret df
  | PacketsTimelineChart =>
      let df := convert_timestamps df in
      st (PlotlyChart (packets_timeline df) true);;
      mret df
  | TopSourceIPsBarChart =>
      st (PlotlyChart (top_sources_bar df) true);;
      mret df
  end.

Definition strategies : list Strategy :=
  [ProtocolPieChart; PacketsTimelineChart; TopSourceIPsBarChart].

Fixpoint render_all (l : list Strategy) (df : DataFrame) : M DataFrame :=
  match l with
  | [] => mret df
  | strategy :: rest => df' ← render strategy df; render_all rest df'
  end.

Definition create_visualizations (df : DataFrame) : M DataFrame :=
  if length df =? 0 then
    st (Info "No data to visualize.");;
    mret df
  else
    render_all strategies df.

(** *** network_dashboard.py *)

Definition start_packet_capture : M (option Processor) :=
  processor ← new_PacketProcessor [];
  thread_start (capture_packets_of processor) true;;
  mret (Some processor).

Definition main : M unit :=
  st (SetPageConfig "Network Traffic Analysis" "wide");;
  st (Title "Real-time Network Traffic Analysis");;
  present ← session_contains "processor";
  (if present : bool then mret tt
   else
     p ← start_packet_capture;
     session_set "processor" (VProcessor p);;
     t ← time_time;
     session_set "start_time" (VInstant t));;
  st (Columns 2);;
  processor ← session_get "processor";
  df ← match processor with
       | Some (VProcessor (Some p)) => get_dataframe p
       | Some (VProcessor None) | None =>
           st (Warning "Packet processor is not initialized.");;
           mret []
       | Some (VInstant _) => raise (AttributeError "get_dataframe")
       end;
  st (Metric 1 "Total Packets" (MCount (length df)));;
  now ← time_time;
  start ← session_attr "start_time";
  match start with
  | VProcessor _ => raise TypeError
  | VInstant start_time =>
      st (Metric 2 "Capture Duration" (MSeconds2f (now - start_time)%Q));;
      st (WriteFrame "Current DataFrame:" df);;
      df ← create_visualizations df;
      st (Subheader "Recent Packets");;
      (if 0 <? length df
       then st (DataframeTable (map select_columns (lastn 10 df)) true)
       else mret tt);;
      clicked ← st_button "Refresh Data";
      (if clicked : bool then st_rerun else mret tt);;
      st (Sleep 2);;
      st_rerun
  end.

(** *** Script runs of one session

    Streamlit runs the script from the top on every rerun: the page is
    rebuilt, [st.session_state] and everything outside the script's
    locals is kept. *)

Definition initial_world : World :=
  {| session_state := ∅; constructions := []; threads := [];
     clock_reads := 0; polls := 0; presses := 0; page := [] |}.

Definition clear_page (w : World) : World :=
  {| session_state := session_state w; constructions := constructions w;
     threads := threads w; clock_reads := clock_reads w; polls := polls w;
     presses := presses w; page := [] |}.

Definition script_run (w : World) : Outcome unit * World :=
  main (clear_page w).

(** The world after [n] script runs of a fresh session. *)
Fixpoint after_runs (n : nat) : World :=
  match n with
  | 0 => initial_world
  | S k => snd (script_run (after_runs k))
  end.

(** The metric shown under [label] on a page, if any. *)
Fixpoint metric_of (label : string) (pg : list UiEvent) : option MetricValue :=
  match pg with
  | [] => None
  | Metric _ l v :: rest =>
      if String.eqb l label then Some v else metric_of label rest
  | _ :: rest => metric_of label rest
  end.

(** The figures of a page, in the order they were put there. *)
Fixpoint charts_of (pg : list UiEvent) : list Figure :=
  match pg with
  | [] => []
  | PlotlyChart fig _ :: rest => fig :: charts_of rest
  | _ :: rest => charts_of rest
  end.

(** The tables of a page, in order. *)
Fixpoint tables_of (pg : list UiEvent) : list DataFrame :=
  match pg with
  | [] => []
  | DataframeTable rows _ :: rest => rows :: tables_of rest
  | _ :: rest => tables_of rest
  end.

End Session.

(** ** The capture thread

    [capture_packets] hands the processor's callback to scapy's [sniff].
    [sniff] is followed over the frames the packet source delivers: it
    optionally keeps each frame, calls [prn] on it, then asks [stop_filter]
    (when one was given) whether to stop after this frame, and stops when
    [count] frames were seen (0 means no limit). *)

Section Capture.

Variable Frame : Type.
Variable P : Type.                                (* the processor's state *)
Variable process_packet : Frame -> P -> P.        (* processor.process_packet *)

Record SniffArgs := {
  prn : option (Frame -> P -> P);
  store : bool;
  stop_filter : option (Frame -> bool);
  count : nat
}.

Inductive CaptureEvent :=
| Callback (f : Frame)        (* prn(f) was called *)
| StopCheck (f : Frame).      (* a stop condition was consulted after f *)

Record SniffState := {
  processor_state : P;
  trace : list CaptureEvent;
  kept : list Frame;
  seen : nat
}.

Definition on_packet_received (a : SniffArgs) (f : Frame) (s : SniffState)
  : SniffState :=
  {| processor_state :=
       match prn a with
       | Some cb => cb f (processor_state s)
       | None => processor_state s
       end;
     trace :=
       match prn a with
       | Some _ => trace s ++ [Callback f]
       | None => trace s
       end;
     kept := if store a then kept s ++ [f] else kept s;
     seen := S (seen s) |}.

Definition consult (f : Frame) (s : SniffState) : SniffState :=
  {| processor_state := processor_state s;
     trace := trace s ++ [StopCheck f];
     kept := kept s; seen := seen s |}.

Fixpoint sniff (a : SniffArgs) (frames : list Frame) (s : SniffState)
  : SniffState :=
  match frames with
  | [] => s
  | f :: rest =>
      let s1 := on_packet_received a f s in
      match stop_filter a with
      | Some stop =>
          let s2 := consult f s1 in
          if stop f then s2
          else if (0 <? count a) && (count a <=? seen s2) then s2
          else sniff a rest s2
      | None =>
          if (0 <? count a) && (count a <=? seen s1) then s1
          else sniff a rest s1
      end
  end.

(** [sniff(prn=processor.process_packet, store=False)] *)
Definition capture_packets (frames : list Frame) (p : P) : SniffState :=
  sniff {| prn := Some process_packet; store := false;
           stop_filter := None; count := 0 |}
        frames
        {| processor_state := p; trace := []; kept := []; seen := 0 |}.

Definition is_stop_check (e : CaptureEvent) : bool :=
  match e with StopCheck _ => true | Callback _ => false end.

(** The number of times a stop condition was consulted. *)
Definition stop_checks (s : SniffState) : nat :=
  length (List.filter is_stop_check (trace s)).

(** The number of frames handed to the callback. *)
Definition processed (s : SniffState) : nat :=
  length (trace s) - stop_checks s.

End Capture.

Arguments Callback {Frame} f.
Arguments StopCheck {Frame} f.

(** ** What a page looks like

    The page of one script run, written out from the frame polled in that
    run, the duration shown and whether the button was pressed. *)

Section Pages.

Variable env : Env.

(** The frame as [create_visualizations] leaves it. *)
Definition frame_after (df : DataFrame) : DataFrame :=
  if length df =? 0 then df else convert_timestamps env df.

Definition visualization_elements (df : DataFrame) : list UiEvent :=
  if length df =? 0 then [Info "No data to visualize."]
  else [PlotlyChart (protocol_pie df) true;
        PlotlyChart (packets_timeline env (convert_timestamps env df)) true;
        PlotlyChart (top_sources_bar (convert_timestamps env df)) true].

Definition recent_packets (df : DataFrame) : list UiEvent :=
  if 0 <? length df
  then [DataframeTable (map select_columns (lastn 10 df)) true]
  else [].

Definition page_for (df : DataFrame) (duration : Q) (click : bool)
  : list UiEvent :=
  [SetPageConfig "Network Traffic Analysis" "wide";
   Title "Real-time Network Traffic Analysis";
   Columns 2;
   Metric 1 "Total Packets" (MCount (length df));
   Metric 2 "Capture Duration" (MSeconds2f duration);
   WriteFrame "Current DataFrame:" df]
  ++ visualization_elements df
  ++ [Subheader "Recent Packets"]
  ++ recent_packets (frame_after df)
  ++ [Button "Refresh Data"]
  ++ (if click then [] else [Sleep 2]).

(** The one processor of a session and what its construction leaves in
    the world. *)
Definition the_processor : Processor := {| obj_id := 0 |}.

Definition session_of (t0 : Instant) : gmap string SVal :=
  <["start_time" := VInstant t0]>
    (<["processor" := VProcessor (Some the_processor)]> ∅).

(** The duration shown by the [n]-th run (counting from 1). *)
Definition duration_at (n : nat) : Q := (clock env n - clock env 0)%Q.

Definition world_after (n : nat) : World :=
  {| session_state := session_of (clock env 0);
     constructions := [{| ctor_args := []; made := the_processor |}];
     threads := [{| target := capture_packets_of the_processor;
                    daemon := true |}];
     clock_reads := S n;
     polls := n;
     presses := n;
     page := page_for (frame_at env the_processor (n - 1))
                      (duration_at n) (pressed env (n - 1)) |}.

End Pages.

(** ** What the claims say, as predicates *)

(** The capture loop consults a stop condition for every delivered frame. *)
Definition checks_every_frame {Frame P : Type}
    (frames : list Frame) (s : SniffState Frame P) : Prop :=
  forall f, In f frames -> In (StopCheck f) (trace Frame P s).

(** Some constructor call of the session was given arguments. *)
Definition capacity_was_passed (w : World) : Prop :=
  exists k, In k (constructions w) /\ ctor_args k <> [].

(** ** Sample data *)

Module Sample.

Definition record (t : Z) : RecordStore.PacketRecord :=
  {| RecordStore.timestamp := inject_Z t;
     RecordStore.source_address := "10.0.0.1";
     RecordStore.destination_address := "10.0.0.2";
     RecordStore.protocol := RecordStore.TCP;
     RecordStore.size_bytes := 100 |}.

Definition row (t : Stamp) (src proto : string) : Row :=
  {| timestamp := t; source := src; destination := "10.0.0.9";
     protocol := proto; size := 60; extra := [("src_port", "443")] |}.

(** A frame whose timestamps still have to be converted. *)
Definition raw_frame : DataFrame :=
  [row (Raw "2024-01-01 00:00:00") "10.0.0.1" "TCP";
   row (Raw "2024-01-01 00:00:01") "10.0.0.2" "UDP"].

(** A frame whose timestamps are [datetime64] already. *)
Definition datetime_frame : DataFrame :=
  [row (Datetime 1500000000) "10.0.0.1" "TCP";
   row (Datetime 2500000000) "10.0.0.2" "UDP"].

(** Nothing captured at the first poll, [raw_frame] afterwards; the clock
    advances two seconds per reading; the button is never pressed. *)
Definition env : Env :=
  {| clock := fun n => inject_Z (100 + 2 * Z.of_nat n);
     frame_at := fun _ n => if n =? 0 then [] else raw_frame;
     pressed := fun _ => false;
     environ := ∅;
     parse_datetime := fun text => Z.of_nat (String.length text) |}.

(** The same, with the wall clock set back between the second and the third
    reading. *)
Definition env_set_back : Env :=
  {| clock := fun n => match n with
                       | 0 => inject_Z 100
                       | 1 => inject_Z 105
                       | _ => inject_Z 103
                       end;
     frame_at := frame_at env;
     pressed := pressed env;
     environ := environ env;
     parse_datetime := parse_datetime env |}.

End Sample.

(** The durations shown never go down from one run to a later one. *)
Definition durations_never_decrease (e : Env) : Prop :=
  forall n m d d', n <= m ->
    metric_of "Capture Duration" (page (after_runs e (S n)))
      = Some (MSeconds2f d) ->
    metric_of "Capture Duration" (page (after_runs e (S m)))
      = Some (MSeconds2f d') ->
    (d <= d')%Q.

(** [create_visualizations] never hands back a frame with rows as it got
    it. *)
Definition frame_always_changed (e : Env) : Prop :=
  forall df w df', df <> [] ->
    fst (create_visualizations e df w) = Returned df' -> df' <> df.

(** ** Runs outside a fresh session

    What a run polls and shows when the session state already has a
    ['processor'] entry, holding a processor or [None]. *)

Section Polls.

Variable env : Env.

Definition polled_frame (po : option Processor) (w : World) : DataFrame :=
  match po with
  | Some p => frame_at env p (polls w)
  | None => []
  end.

Definition polls_after (po : option Processor) (w : World) : nat :=
  match po with
  | Some _ => S (polls w)
  | None => polls w
  end.

(** The page up to the "Total Packets" metric. *)
Definition page_until_total (po : option Processor) (w : World)
  : list UiEvent :=
  [SetPageConfig "Network Traffic Analysis" "wide";
   Title "Real-time Network Traffic Analysis";
   Columns 2]
  ++ match po with
     | Some _ => []
     | None => [Warning "Packet processor is not initialized."]
     end
  ++ [Metric 1 "Total Packets" (MCount (length (polled_frame po w)))].

(** The page from the duration metric on. *)
Definition page_from_duration (df : DataFrame) (duration : Q) (click : bool)
  : list UiEvent :=
  [Metric 2 "Capture Duration" (MSeconds2f duration);
   WriteFrame "Current DataFrame:" df]
  ++ visualization_elements env df
  ++ [Subheader "Recent Packets"]
  ++ recent_packets (frame_after env df)
  ++ [Button "Refresh Data"]
  ++ (if click then [] else [Sleep 2]).

End Polls.

(** A world continues another: nothing recorded so far is lost. *)
Record continues (w w' : World) : Prop := {
  keeps_keys :
    forall k, is_Some (session_state w !! k) ->
              is_Some (session_state w' !! k);
  keeps_processor :
    forall v, session_state w !! "processor" = Some v ->
              session_state w' !! "processor" = Some v;
  keeps_other_entries :
    forall k, k <> "processor" -> k <> "start_time" ->
              session_state w' !! k = session_state w !! k;
  keeps_constructions :
    exists l, constructions w' = constructions w ++ l;
  keeps_threads :
    exists l, threads w' = threads w ++ l;
  clock_reads_grow : clock_reads w <= clock_reads w';
  polls_grow : polls w <= polls w';
  presses_grow : presses w <= presses w'
}.

(** The numbers and labels a figure is drawn from. *)
Definition figure_counts (f : Figure) : list nat :=
  match f with
  | Pie values _ _ => values
  | Line _ y _ => y
  | Bar _ y _ => y
  end.

Definition figure_names (f : Figure) : list string :=
  match f with
  | Pie _ names _ => names
  | Bar x _ _ => x
  | Line _ _ _ => []
  end.

Definition figure_instants (f : Figure) : list Z :=
  match f with
  | Line x _ _ => x
  | _ => []
  end.

(** How often [k] occurs in a column. *)
Definition occurrences {K} `{EqDecision K} (k : K) (l : list K) : nat :=
  length (List.filter (fun y => bool_decide (y = k)) l).

(** The count kept for [k] in a list of (key, count) entries. *)
Definition weight {K} `{EqDecision K} (k : K) (acc : list (K * nat)) : nat :=
  list_sum (map snd (List.filter (fun e => bool_decide (fst e = k)) acc)).

(** Entries ordered by falling count. *)
Definition by_falling_count {K} (a b : K * nat) : Prop := snd b <= snd a.

(** Worlds a session does not reach on its own: a processor entry without
    a start time, and a processor entry holding [None]. *)
Module Worlds.

Definition no_start_time : World :=
  {| session_state := {["processor" := VProcessor (Some the_processor)]};
     constructions := [{| ctor_args := []; made := the_processor |}];
     threads := [{| target := capture_packets_of the_processor;
                    daemon := true |}];
     clock_reads := 0; polls := 1; presses := 0; page := [] |}.

Definition none_processor : World :=
  {| session_state :=
       <["start_time" := VInstant (inject_Z 100)]>
         {["processor" := VProcessor None]};
     constructions := []; threads := [];
     clock_reads := 1; polls := 0; presses := 0; page := [] |}.

End Worlds.

(** * Properties *)

(** ** Lists *)

Lemma lastn_length {A} (n : nat) (l : list A) :
  length (lastn n l) = Nat.min n (length l).
Proof. unfold lastn. rewrite length_skipn. lia. Qed.

Lemma lastn_all {A} (n : nat) (l : list A) :
  length l <= n -> lastn n l = l.
Proof.
  intros H. unfold lastn.
  replace (length l - n) with 0 by lia. reflexivity.
Qed.

Lemma lastn_nth_error {A} (n : nat) (l : list A) (i : nat) :
  nth_error (lastn n l) i = nth_error l (length l - n + i).
Proof. unfold lastn. apply nth_error_skipn. Qed.

Lemma tl_skipn {A} (k : nat) (l : list A) :
  tl (skipn k l) = skipn (S k) l.
Proof.
  revert k. induction l as [|x l IH]; intros k.
  - destruct k; reflexivity.
  - destruct k as [|k]; [reflexivity|]. simpl. apply IH.
Qed.

Lemma skipn_snoc {A} (k : nat) (l : list A) (x : A) :
  k <= length l -> skipn k (l ++ [x]) = skipn k l ++ [x].
Proof.
  revert l. induction k as [|k IH]; intros l H; [reflexivity|].
  destruct l as [|y l]; simpl in *; [lia|]. apply IH. lia.
Qed.

(** ** The script-run monad *)

(** Unfold the monad and the primitive calls, then project the worlds. *)
Ltac run_script :=
  cbv beta iota delta
    [mbind M_bind mret M_ret st raise st_rerun session_contains session_set
     session_get session_attr new_PacketProcessor thread_start time_time
     get_dataframe st_button render render_all strategies];
  cbn [session_state constructions threads clock_reads polls presses page
       fst snd].

Ltac step_script :=
  cbn beta iota zeta delta
    [session_state constructions threads clock_reads polls presses page
     fst snd].

Section Runs.

Variable env : Env.

Lemma create_visualizations_run (df : DataFrame) (w : World) :
  create_visualizations env df w =
    (Returned (frame_after env df),
     {| session_state := session_state w; constructions := constructions w;
        threads := threads w; clock_reads := clock_reads w;
        polls := polls w; presses := presses w;
        page := page w ++ visualization_elements env df |}).
Proof.
  unfold create_visualizations, frame_after, visualization_elements.
  destruct (length df =? 0); run_script.
  - reflexivity.
  - rewrite <- !app_assoc. reflexivity.
Qed.

Lemma script_run_ready (w : World) (p : Processor) (t0 : Instant) :
  session_state w !! "processor" = Some (VProcessor (Some p)) ->
  session_state w !! "start_time" = Some (VInstant t0) ->
  script_run env w =
    (Rerun,
     {| session_state := session_state w; constructions := constructions w;
        threads := threads w; clock_reads := S (clock_reads w);
        polls := S (polls w); presses := S (presses w);
        page := page_for env (frame_at env p (polls w))
                  (clock env (clock_reads w) - t0)%Q
                  (pressed env (presses w)) |}).
Proof.
  intros Hp Ht. unfold script_run, main, clear_page. run_script.
  rewrite Hp, bool_decide_eq_true_2 by eauto. step_script.
  rewrite Hp. step_script. rewrite Ht. step_script.
  rewrite create_visualizations_run. step_script.
  unfold page_for, recent_packets.
  destruct (0 <? length (frame_after env (frame_at env p (polls w))));
    step_script; destruct (pressed env (presses w)); step_script;
    do 2 f_equal; rewrite <- ?app_assoc; reflexivity.
Qed.

Lemma script_run_fresh (w : World) :
  session_state w !! "processor" = None ->
  let p := {| obj_id := length (constructions w) |} in
  script_run env w =
    (Rerun,
     {| session_state :=
          <["start_time" := VInstant (clock env (clock_reads w))]>
            (<["processor" := VProcessor (Some p)]> (session_state w));
        constructions :=
          constructions w ++ [{| ctor_args := []; made := p |}];
        threads :=
          threads w ++ [{| target := capture_packets_of p; daemon := true |}];
        clock_reads := S (S (clock_reads w));
        polls := S (polls w); presses := S (presses w);
        page := page_for env (frame_at env p (polls w))
                  (clock env (S (clock_reads w))
                   - clock env (clock_reads w))%Q
                  (pressed env (presses w)) |}).
Proof.
  intros Hp p. unfold script_run, main, clear_page, start_packet_capture.
  run_script.
  rewrite Hp, bool_decide_eq_false_2 by (intros [? ?]; discriminate).
  step_script.
  rewrite lookup_insert_ne, lookup_insert_eq by discriminate. step_script.
  rewrite lookup_insert_eq. step_script.
  rewrite create_visualizations_run. step_script.
  unfold page_for, recent_packets. fold p.
  destruct (0 <? length (frame_after env (frame_at env p (polls w))));
    step_script; destruct (pressed env (presses w)); step_script;
    do 2 f_equal; rewrite <- ?app_assoc; reflexivity.
Qed.

Lemma session_of_processor (t0 : Instant) :
  session_of t0 !! "processor" = Some (VProcessor (Some the_processor)).
Proof.
  unfold session_of. rewrite lookup_insert_ne by discriminate.
  apply lookup_insert_eq.
Qed.

Lemma session_of_start_time (t0 : Instant) :
  session_of t0 !! "start_time" = Some (VInstant t0).
Proof. unfold session_of. apply lookup_insert_eq. Qed.

Lemma script_run_world_after (n : nat) :
  script_run env (world_after env (S n)) =
    (Rerun, world_after env (S (S n))).
Proof.
  rewrite (script_run_ready _ the_processor (clock env 0)).
  - reflexivity.
  - apply session_of_processor.
  - apply session_of_start_time.
Qed.

Lemma script_run_initial :
  script_run env initial_world = (Rerun, world_after env 1).
Proof.
  rewrite script_run_fresh by apply lookup_empty. reflexivity.
Qed.

Lemma after_runs_S (n : nat) :
  after_runs env (S n) = world_after env (S n).
Proof.
  induction n as [|n IH].
  - simpl. rewrite script_run_initial. reflexivity.
  - change (after_runs env (S (S n)))
      with (snd (script_run env (after_runs env (S n)))).
    rewrite IH, script_run_world_after. reflexivity.
Qed.

(** No script run of a session raises: each ends in [st.rerun()]. *)
Lemma script_run_reruns (n : nat) :
  fst (script_run env (after_runs env n)) = Rerun.
Proof.
  destruct n as [|n].
  - simpl. rewrite script_run_initial. reflexivity.
  - rewrite after_runs_S, script_run_world_after. reflexivity.
Qed.

End Runs.



(** ** The record store *)

Lemma appends_snoc (rs : list RecordStore.PacketRecord)
    (r : RecordStore.PacketRecord) (s : RecordStore.Store) :
  RecordStore.appends (rs ++ [r]) s =
    RecordStore.append r (RecordStore.appends rs s).
Proof. unfold RecordStore.appends. apply fold_left_app. Qed.

Lemma append_capacity (r : RecordStore.PacketRecord) (s : RecordStore.Store) :
  RecordStore.capacity (RecordStore.append r s) = RecordStore.capacity s.
Proof. reflexivity. Qed.

Lemma appends_capacity (rs : list RecordStore.PacketRecord)
    (s : RecordStore.Store) :
  RecordStore.capacity (RecordStore.appends rs s) = RecordStore.capacity s.
Proof.
  induction rs as [|r rs IH] using rev_ind; [reflexivity|].
  rewrite appends_snoc, append_capacity. exact IH.
Qed.

(** After any writes to a new store, the store holds the last [cap] records
    written, oldest first. *)
Lemma appends_new_records (cap : nat) (rs : list RecordStore.PacketRecord) :
  RecordStore.records (RecordStore.appends rs (RecordStore.new cap)) =
    lastn cap rs.
Proof.
  induction rs as [|r rs IH] using rev_ind; [reflexivity|].
  rewrite appends_snoc. unfold RecordStore.append.
  cbn [RecordStore.records].
  rewrite appends_capacity, IH. cbn [RecordStore.capacity RecordStore.new].
  rewrite length_app, lastn_length. cbn [length].
  unfold lastn. rewrite length_app. cbn [length].
  rewrite <- skipn_snoc by lia.
  destruct (Nat.ltb_spec cap (Nat.min cap (length rs) + 1)) as [H|H].
  - rewrite tl_skipn. f_equal. lia.
  - f_equal. lia.
Qed.

(** One append keeps the bound, whatever the store held. *)
Lemma append_bounded (r : RecordStore.PacketRecord) (s : RecordStore.Store) :
  length (RecordStore.records s) <= RecordStore.capacity s ->
  length (RecordStore.records (RecordStore.append r s))
    <= RecordStore.capacity (RecordStore.append r s).
Proof.
  intros H. unfold RecordStore.append.
  cbn [RecordStore.records RecordStore.capacity].
  destruct (Nat.ltb_spec (RecordStore.capacity s)
              (length (RecordStore.records s ++ [r]))) as [Hlt|Hge].
  - destruct (RecordStore.records s) as [|x l]; simpl in *;
      rewrite ?length_app; simpl; lia.
  - exact Hge.
Qed.

(** C1: after any sequence of appends to a new store its length is at most
    the configured capacity, and after more than [cap] appends the snapshot
    has exactly [cap] records: the last [cap] appended ones, oldest first. *)
Theorem store_bounded_keeps_last
    (cap : nat) (rs : list RecordStore.PacketRecord) :
  let s := RecordStore.appends rs (RecordStore.new cap) in
  RecordStore.capacity s = cap /\
  length (RecordStore.snapshot s) <= cap /\
  (cap < length rs ->
   RecordStore.count s = cap /\ RecordStore.snapshot s = lastn cap rs).
Proof.
  intros s. subst s.
  unfold RecordStore.count, RecordStore.snapshot.
  rewrite appends_capacity, appends_new_records.
  rewrite lastn_length. cbn [RecordStore.capacity RecordStore.new].
  repeat split; lia.
Qed.

Lemma store_bounded_keeps_last_witness :
  RecordStore.snapshot
    (RecordStore.appends [Sample.record 1; Sample.record 2; Sample.record 3]
       (RecordStore.new 2))
  = [Sample.record 2; Sample.record 3].
Proof.
  destruct (store_bounded_keeps_last 2
              [Sample.record 1; Sample.record 2; Sample.record 3])
    as (_ & _ & H).
  destruct H as [_ H]; [simpl; lia|]. exact H.
Defined.

(** ** The capture thread *)

Section CaptureFacts.

Variable Frame : Type.
Variable P : Type.
Variable process_packet : Frame -> P -> P.

(** Without a stop filter and a count, [sniff] goes through every frame. *)
Lemma sniff_unconditional
    (cb : Frame -> P -> P) (keep : bool) (frames : list Frame)
    (s : SniffState Frame P) :
  sniff Frame P
    {| prn := Some cb; store := keep; stop_filter := None; count := 0 |}
    frames s =
  {| processor_state :=
       fold_left (fun acc f => cb f acc) frames (processor_state Frame P s);
     trace := trace Frame P s ++ map Callback frames;
     kept := if keep then kept Frame P s ++ frames else kept Frame P s;
     seen := seen Frame P s + length frames |}.
Proof.
  revert s. induction frames as [|f rest IH]; intros s.
  - destruct s, keep; cbn; rewrite ?app_nil_r, Nat.add_0_r; reflexivity.
  - cbn [sniff stop_filter count Nat.ltb Nat.leb andb].
    rewrite IH. unfold on_packet_received.
    cbn [prn store processor_state trace kept seen fold_left map length].
    destruct keep; rewrite <- ?app_assoc; f_equal; cbn; lia.
Qed.

Lemma stop_checks_callbacks (frames : list Frame) :
  List.filter (is_stop_check Frame) (map Callback frames) = [].
Proof. induction frames as [|f rest IH]; [reflexivity|exact IH]. Qed.

(** C2 (amended): the capture loop hands every delivered frame, in order,
    to the processor's callback and consults no stop or cancellation
    condition at all; it ends only when the packet source delivers no more
    frames. *)
Theorem capture_packets_never_consults (frames : list Frame) (p : P) :
  let s := capture_packets Frame P process_packet frames p in
  trace Frame P s = map Callback frames /\
  stop_checks Frame P s = 0 /\
  processed Frame P s = length frames /\
  seen Frame P s = length frames /\
  processor_state Frame P s =
    fold_left (fun acc f => process_packet f acc) frames p.
Proof.
  unfold capture_packets, processed, stop_checks.
  rewrite sniff_unconditional.
  cbn [trace seen processor_state app].
  rewrite stop_checks_callbacks, length_map. cbn [length].
  repeat split; lia.
Qed.

End CaptureFacts.

(** C2 as stated fails: one frame is delivered and processed, and no stop
    condition is consulted for it. *)
Lemma capture_loop_checks_nothing :
  ~ checks_every_frame [7]
      (capture_packets nat unit (fun _ u => u) [7] tt).
Proof.
  intros H. specialize (H 7 (or_introl eq_refl)).
  cbn in H. destruct H as [H|[]]. discriminate H.
Qed.

(** ** Sessions *)

Section SessionFacts.

Variable env : Env.

Lemma polls_after_runs (n : nat) : polls (after_runs env n) = n.
Proof. destruct n; [reflexivity|]. rewrite after_runs_S. reflexivity. Qed.

Lemma constructions_after_runs (n : nat) :
  constructions (after_runs env (S n)) =
    [{| ctor_args := []; made := the_processor |}].
Proof. rewrite after_runs_S. reflexivity. Qed.

Lemma page_after_runs (n : nat) :
  page (after_runs env (S n)) =
    page_for env (frame_at env the_processor n) (duration_at env (S n))
      (pressed env n).
Proof.
  rewrite after_runs_S. cbn [page world_after].
  replace (S n - 1) with n by lia. reflexivity.
Qed.

(** C3 (amended): the dashboard builds its processor with no arguments at
    all, once, whatever the clock, the frames, the button and the
    environment variables are: no capacity is passed at start-up. *)
Theorem processor_built_without_arguments (n : nat) :
  ~ capacity_was_passed (after_runs env n) /\
  map ctor_args (constructions (after_runs env (S n))) = [[]] /\
  (forall env' : Env,
     constructions (after_runs env' n) = constructions (after_runs env n)).
Proof.
  split; [|split].
  - intros (k & Hin & Hargs). destruct n as [|n].
    + destruct Hin.
    + rewrite constructions_after_runs in Hin.
      destruct Hin as [<-|[]]. apply Hargs. reflexivity.
  - rewrite constructions_after_runs. reflexivity.
  - intros env'. destruct n as [|n]; [reflexivity|].
    rewrite !after_runs_S. reflexivity.
Qed.

(** C4: in every script run the "Total Packets" metric is the number of rows
    of the frame that [get_dataframe] returned in that run, and the run
    polls the processor exactly once. *)
Theorem total_packets_is_frame_length (n : nat) :
  let before := after_runs env n in
  let after := after_runs env (S n) in
  let df := frame_at env the_processor (polls before) in
  fst (script_run env before) = Rerun /\
  polls after = S (polls before) /\
  session_state after !! "processor" = Some (VProcessor (Some the_processor)) /\
  metric_of "Total Packets" (page after) = Some (MCount (length df)) /\
  In (WriteFrame "Current DataFrame:" df) (page after).
Proof.
  cbv zeta. rewrite !polls_after_runs, page_after_runs.
  split; [apply script_run_reruns|].
  split; [reflexivity|].
  split; [rewrite after_runs_S; apply session_of_processor|].
  split; [reflexivity|].
  unfold page_for. cbn. auto 10.
Qed.

(** C5 (amended): the processor and the start time are made in the first
    run only and every later run finds the same two in the session state;
    the session has built one processor and started one capture thread,
    however many runs there were; each run shows the clock reading taken in
    that run minus the recorded start time, and as long as the clock
    readings do not go down the durations shown do not either. *)
Theorem engine_created_once (n : nat) :
  let w := after_runs env (S n) in
  session_state w !! "processor" = Some (VProcessor (Some the_processor)) /\
  session_state w !! "start_time" = Some (VInstant (clock env 0)) /\
  constructions w = [{| ctor_args := []; made := the_processor |}] /\
  threads w =
    [{| target := capture_packets_of the_processor; daemon := true |}] /\
  metric_of "Capture Duration" (page w) =
    Some (MSeconds2f (clock env (S n) - clock env 0)%Q) /\
  ((forall i j, i <= j -> (clock env i <= clock env j)%Q) ->
   durations_never_decrease env).
Proof.
  cbv zeta. rewrite page_after_runs, after_runs_S.
  split; [apply session_of_processor|].
  split; [apply session_of_start_time|].
  split; [reflexivity|]. split; [reflexivity|]. split; [reflexivity|].
  intros Hclock a b d d' Hab. rewrite !page_after_runs.
  cbn [metric_of page_for app String.eqb Ascii.eqb Bool.eqb].
  intros [= <-] [= <-]. unfold duration_at.
  assert (clock env (S a) <= clock env (S b))%Q by (apply Hclock; lia).
  lra.
Qed.

End SessionFacts.

(** ** Pages *)

Lemma charts_of_app (a b : list UiEvent) :
  charts_of (a ++ b) = charts_of a ++ charts_of b.
Proof.
  induction a as [|e a IH]; [reflexivity|].
  destruct e; cbn; rewrite IH; reflexivity.
Qed.

Lemma tables_of_app (a b : list UiEvent) :
  tables_of (a ++ b) = tables_of a ++ tables_of b.
Proof.
  induction a as [|e a IH]; [reflexivity|].
  destruct e; cbn; rewrite IH; reflexivity.
Qed.

Lemma length_convert_timestamps (env : Env) (df : DataFrame) :
  length (convert_timestamps env df) = length df.
Proof. unfold convert_timestamps. apply length_map. Qed.

Lemma length_frame_after (env : Env) (df : DataFrame) :
  length (frame_after env df) = length df.
Proof.
  unfold frame_after. destruct (length df =? 0); [reflexivity|].
  apply length_convert_timestamps.
Qed.

Lemma nonempty_length (df : DataFrame) :
  df <> [] -> (length df =? 0) = false /\ (0 <? length df) = true.
Proof.
  destruct df; [congruence|]. intros _. split; reflexivity.
Qed.

Section PageFacts.

Variable env : Env.

Lemma charts_of_page_for (df : DataFrame) (d : Q) (click : bool) :
  charts_of (page_for env df d click) =
    charts_of (visualization_elements env df).
Proof.
  unfold page_for, recent_packets. rewrite !charts_of_app.
  destruct (0 <? length (frame_after env df)), click; cbn;
    rewrite ?app_nil_r; reflexivity.
Qed.

Lemma tables_of_page_for (df : DataFrame) (d : Q) (click : bool) :
  tables_of (page_for env df d click) =
    tables_of (recent_packets (frame_after env df)).
Proof.
  unfold page_for, visualization_elements. rewrite !tables_of_app.
  destruct (length df =? 0), click; cbn; rewrite ?app_nil_r; reflexivity.
Qed.

Lemma warnings_of_page_for (df : DataFrame) (d : Q) (click : bool) :
  List.filter is_warning (page_for env df d click) = [].
Proof.
  unfold page_for, visualization_elements, recent_packets.
  destruct (length df =? 0), (0 <? length (frame_after env df)), click;
    reflexivity.
Qed.

(** C8: on a frame with rows [create_visualizations] puts exactly three
    charts on the page, in this order: the protocol pie, the packets-per-
    second line, the top-sources bar; on a frame without rows it puts the
    note and no chart. *)
Theorem three_charts_in_order (df : DataFrame) (w : World) :
  let w' := snd (create_visualizations env df w) in
  (df <> [] ->
   page w' = page w ++
     [PlotlyChart (protocol_pie df) true;
      PlotlyChart (packets_timeline env (convert_timestamps env df)) true;
      PlotlyChart (top_sources_bar (convert_timestamps env df)) true] /\
   charts_of (page w') = charts_of (page w) ++
     [protocol_pie df;
      packets_timeline env (convert_timestamps env df);
      top_sources_bar (convert_timestamps env df)] /\
   exists values names x y x' y',
     protocol_pie df = Pie values names "Protocol Distribution" /\
     packets_timeline env (convert_timestamps env df) =
       Line x y "Packets per Second" /\
     top_sources_bar (convert_timestamps env df) =
       Bar x' y' "Top Source IP Addresses") /\
  (df = [] ->
   page w' = page w ++ [Info "No data to visualize."] /\
   charts_of (page w') = charts_of (page w)).
Proof.
  cbv zeta. rewrite create_visualizations_run. cbn [snd page].
  unfold visualization_elements. split.
  - intros Hdf. destruct (nonempty_length df Hdf) as [-> _].
    split; [reflexivity|]. split.
    + rewrite charts_of_app. reflexivity.
    + unfold protocol_pie, packets_timeline, top_sources_bar. eauto 10.
  - intros ->. split; [reflexivity|].
    rewrite charts_of_app. cbn. apply app_nil_r.
Qed.

(** C6: a run that polls an empty frame ends like any other run, in the
    rerun and without an exception; its page shows a total of 0, the note
    of [create_visualizations], no chart and no table. *)
Theorem empty_frame_page (n : nat) :
  frame_at env the_processor n = [] ->
  let w := after_runs env (S n) in
  fst (script_run env (after_runs env n)) = Rerun /\
  page w =
    [SetPageConfig "Network Traffic Analysis" "wide";
     Title "Real-time Network Traffic Analysis";
     Columns 2;
     Metric 1 "Total Packets" (MCount 0);
     Metric 2 "Capture Duration" (MSeconds2f (duration_at env (S n)));
     WriteFrame "Current DataFrame:" [];
     Info "No data to visualize.";
     Subheader "Recent Packets";
     Button "Refresh Data"]
    ++ (if pressed env n then [] else [Sleep 2]) /\
  metric_of "Total Packets" (page w) = Some (MCount 0) /\
  charts_of (page w) = [] /\
  tables_of (page w) = [].
Proof.
  intros Hdf. cbv zeta. rewrite page_after_runs, Hdf.
  split; [apply script_run_reruns|].
  repeat split; destruct (pressed env n); reflexivity.
Qed.

Lemma convert_timestamps_nth (df : DataFrame) (i : nat) :
  nth_error (convert_timestamps env df) i =
    option_map (fun r => set_timestamp r (to_datetime env (timestamp r)))
      (nth_error df i).
Proof. unfold convert_timestamps. apply nth_error_map. Qed.

(** C7: the snapshot of the store lists the retained records in the order
    they were appended; and a run whose frame has rows shows one table,
    made of the last min(10, length) rows of the frame as the charts left
    it (timestamps converted), in the frame's order, cut to the five
    columns. *)
Theorem recent_packets_keep_order
    (cap : nat) (rs : list RecordStore.PacketRecord) (n : nat) :
  let snap := RecordStore.snapshot
                (RecordStore.appends rs (RecordStore.new cap)) in
  let df := frame_at env the_processor n in
  let shown := map select_columns (lastn 10 (convert_timestamps env df)) in
  (forall i j, i < j -> j < length snap ->
     nth_error snap i = nth_error rs (length rs - cap + i) /\
     nth_error snap j = nth_error rs (length rs - cap + j) /\
     length rs - cap + i < length rs - cap + j) /\
  (0 < length df ->
   tables_of (page (after_runs env (S n))) = [shown] /\
   length shown = Nat.min 10 (length df) /\
   forall i, i < length shown ->
     nth_error shown i =
       option_map
         (fun r => select_columns
                     (set_timestamp r (to_datetime env (timestamp r))))
         (nth_error df (length df - 10 + i))).
Proof.
  cbv zeta. split.
  - intros i j Hij Hj. unfold RecordStore.snapshot.
    rewrite appends_new_records, !lastn_nth_error.
    repeat split; lia.
  - intros Hdf.
    rewrite page_after_runs, tables_of_page_for.
    unfold recent_packets. rewrite length_frame_after. unfold frame_after.
    destruct (length (frame_at env the_processor n)) as [|k] eqn:Hlen;
      [lia|].
    cbn [Nat.eqb Nat.ltb Nat.leb tables_of].
    split; [reflexivity|]. split.
    + rewrite length_map, lastn_length, length_convert_timestamps. lia.
    + intros i _. rewrite nth_error_map, lastn_nth_error.
      rewrite convert_timestamps_nth, length_convert_timestamps, Hlen.
      destruct (nth_error (frame_at env the_processor n) (S k - 10 + i));
        reflexivity.
Qed.

Lemma set_timestamp_fixed (r : Row) :
  set_timestamp r (to_datetime env (timestamp r)) = r <->
  exists ns, timestamp r = Datetime ns.
Proof.
  destruct r as [t s d p z e]. unfold set_timestamp, to_datetime.
  cbn. split.
  - intros H. injection H as H. destruct t as [text|ns]; [discriminate|].
    eauto.
  - intros [ns ->]. reflexivity.
Qed.

Lemma convert_timestamps_fixed (df : DataFrame) :
  convert_timestamps env df = df <->
  forall r, In r df -> exists ns, timestamp r = Datetime ns.
Proof.
  unfold convert_timestamps. induction df as [|r df IH]; cbn.
  - split; [intros _ r []|reflexivity].
  - split.
    + intros H. injection H as Hr Hdf. intros r' [<-|Hin].
      * apply set_timestamp_fixed. exact Hr.
      * apply IH; assumption.
    + intros H. f_equal.
      * apply set_timestamp_fixed. apply H. left. reflexivity.
      * apply IH. intros r' Hin. apply H. right. exact Hin.
Qed.

(** C9 (amended): [PacketsTimelineChart.render] assigns the converted
    [timestamp] column to the frame it is given, so after
    [create_visualizations] on a frame with rows the caller holds the frame
    with every timestamp converted and nothing else touched; the frame
    stays as it was exactly when every timestamp was a datetime already. *)
Theorem timeline_converts_in_place (df : DataFrame) (w : World) :
  df <> [] ->
  fst (render env PacketsTimelineChart df w) =
    Returned (convert_timestamps env df) /\
  fst (create_visualizations env df w) =
    Returned (convert_timestamps env df) /\
  length (convert_timestamps env df) = length df /\
  (forall i, nth_error (convert_timestamps env df) i =
     option_map (fun r => set_timestamp r (to_datetime env (timestamp r)))
       (nth_error df i)) /\
  (convert_timestamps env df = df <->
   forall r, In r df -> exists ns, timestamp r = Datetime ns).
Proof.
  intros Hdf. split; [reflexivity|]. split.
  - rewrite create_visualizations_run. cbn [fst]. unfold frame_after.
    destruct (nonempty_length df Hdf) as [-> _]. reflexivity.
  - split; [apply length_convert_timestamps|].
    split; [apply convert_timestamps_nth|apply convert_timestamps_fixed].
Qed.

(** C10: [start_packet_capture] returns a processor, never [None]; so no
    run of a session shows the "not initialized" warning, and neither does
    a run from any world whose session state has no processor yet. *)
Theorem warning_branch_unreachable (n : nat) :
  (forall w, exists p w',
     start_packet_capture w = (Returned (Some p), w')) /\
  List.filter is_warning (page (after_runs env n)) = [] /\
  (forall w, session_state w !! "processor" = None ->
     List.filter is_warning (page (snd (script_run env w))) = []).
Proof.
  split; [|split].
  - intros w. unfold start_packet_capture. run_script. eauto.
  - destruct n as [|n]; [reflexivity|].
    rewrite page_after_runs. apply warnings_of_page_for.
  - intros w Hw. rewrite script_run_fresh by exact Hw.
    cbn [snd page]. apply warnings_of_page_for.
Qed.

End PageFacts.

Lemma engine_created_once_witness :
  durations_never_decrease Sample.env.
Proof.
  refine (proj2 (proj2 (proj2 (proj2 (proj2
            (engine_created_once Sample.env 0))))) _).
  intros i j Hij. cbn [clock Sample.env].
  rewrite <- Zle_Qle. lia.
Defined.

Lemma empty_frame_page_witness :
  metric_of "Total Packets" (page (after_runs Sample.env 1)) = Some (MCount 0)
  /\ charts_of (page (after_runs Sample.env 1)) = []
  /\ tables_of (page (after_runs Sample.env 1)) = [].
Proof.
  destruct (empty_frame_page Sample.env 0) as (_ & _ & Hm & Hc & Ht);
    [reflexivity|].
  repeat split; assumption.
Defined.

Lemma recent_packets_keep_order_witness :
  nth_error
    (RecordStore.snapshot
       (RecordStore.appends
          [Sample.record 1; Sample.record 2; Sample.record 3]
          (RecordStore.new 2))) 0
  = Some (Sample.record 2)
  /\ tables_of (page (after_runs Sample.env 2)) =
       [map select_columns
          (lastn 10 (convert_timestamps Sample.env Sample.raw_frame))].
Proof.
  destruct (recent_packets_keep_order Sample.env 2
              [Sample.record 1; Sample.record 2; Sample.record 3] 1)
    as [Hstore Hpage].
  split.
  - destruct (Hstore 0 1) as (H0 & _ & _); [lia|cbn; lia|]. exact H0.
  - destruct Hpage as (Ht & _ & _); [cbn; lia|]. exact Ht.
Defined.

Lemma three_charts_in_order_witness :
  charts_of (page (snd (create_visualizations Sample.env Sample.raw_frame
                          initial_world))) =
    [protocol_pie Sample.raw_frame;
     packets_timeline Sample.env
       (convert_timestamps Sample.env Sample.raw_frame);
     top_sources_bar (convert_timestamps Sample.env Sample.raw_frame)].
Proof.
  destruct (three_charts_in_order Sample.env Sample.raw_frame initial_world)
    as [H _].
  destruct H as (_ & Hc & _); [discriminate|]. exact Hc.
Defined.

Lemma timeline_converts_in_place_witness :
  fst (create_visualizations Sample.env Sample.raw_frame initial_world) =
    Returned (convert_timestamps Sample.env Sample.raw_frame).
Proof.
  destruct (timeline_converts_in_place Sample.env Sample.raw_frame
              initial_world) as (_ & H & _); [discriminate|].
  exact H.
Defined.

Lemma warning_branch_unreachable_witness :
  List.filter is_warning
    (page (snd (script_run Sample.env initial_world))) = [].
Proof.
  destruct (warning_branch_unreachable Sample.env 0) as (_ & _ & H).
  apply H. apply lookup_empty.
Defined.

(** C3 as stated fails: after the first run the session has built its
    processor, and the constructor call carried no argument. *)
Lemma processor_gets_no_capacity :
  constructions (after_runs Sample.env 1) <> [] /\
  ~ capacity_was_passed (after_runs Sample.env 1).
Proof.
  rewrite constructions_after_runs. split; [discriminate|].
  intros (k & Hin & Hargs). rewrite constructions_after_runs in Hin.
  destruct Hin as [<-|[]]. apply Hargs. reflexivity.
Qed.

(** C9 as stated fails: a frame with rows whose timestamps are datetimes
    already is the same frame after [create_visualizations]. *)
Lemma datetime_frame_left_unchanged :
  fst (create_visualizations Sample.env Sample.datetime_frame initial_world)
    = Returned Sample.datetime_frame /\
  ~ frame_always_changed Sample.env.
Proof.
  split; [reflexivity|]. intros H.
  apply (H Sample.datetime_frame initial_world Sample.datetime_frame);
    [discriminate|reflexivity|reflexivity].
Qed.

(** C5 as stated fails: when the wall clock is set back between two runs,
    the first run shows 5 seconds and the second shows 3. *)
Lemma duration_goes_down_with_clock :
  metric_of "Capture Duration" (page (after_runs Sample.env_set_back 1))
    = Some (MSeconds2f (inject_Z 105 - inject_Z 100)%Q) /\
  metric_of "Capture Duration" (page (after_runs Sample.env_set_back 2))
    = Some (MSeconds2f (inject_Z 103 - inject_Z 100)%Q) /\
  ~ durations_never_decrease Sample.env_set_back.
Proof.
  assert (H1 : metric_of "Capture Duration"
                 (page (after_runs Sample.env_set_back 1))
               = Some (MSeconds2f (inject_Z 105 - inject_Z 100)%Q))
    by (rewrite page_after_runs; reflexivity).
  assert (H2 : metric_of "Capture Duration"
                 (page (after_runs Sample.env_set_back 2))
               = Some (MSeconds2f (inject_Z 103 - inject_Z 100)%Q))
    by (rewrite page_after_runs; reflexivity).
  split; [exact H1|]. split; [exact H2|].
  intros H. specialize (H 0 1 _ _ (Nat.le_succ_diag_r 0) H1 H2).
  vm_compute in H. apply H. reflexivity.
Qed.

(** The sample frames through the charts. *)
Example raw_frame_converted :
  map timestamp (convert_timestamps Sample.env Sample.raw_frame) =
    [Datetime 19; Datetime 19].
Proof. reflexivity. Qed.

Example raw_frame_pie :
  protocol_pie Sample.raw_frame =
    Pie [1; 1] ["TCP"; "UDP"] "Protocol Distribution".
Proof. reflexivity. Qed.

Example datetime_frame_timeline :
  packets_timeline Sample.env Sample.datetime_frame =
    Line [1000000000%Z; 2000000000%Z] [1; 1] "Packets per Second".
Proof. reflexivity. Qed.

Example value_counts_orders :
  value_counts ["a"; "b"; "b"; "c"; "a"; "b"] = [("b", 3); ("a", 2); ("c", 1)].
Proof. reflexivity. Qed.


(** ** Runs outside a fresh session *)

Section OtherRuns.

Variable env : Env.

Lemma script_run_without_start_time (w : World) (po : option Processor) :
  session_state w !! "processor" = Some (VProcessor po) ->
  session_state w !! "start_time" = None ->
  script_run env w =
    (Raised (AttributeError "start_time"),
     {| session_state := session_state w; constructions := constructions w;
        threads := threads w; clock_reads := S (clock_reads w);
        polls := polls_after po w; presses := presses w;
        page := page_until_total env po w |}).
Proof.
  intros Hp Ht. unfold script_run, main, clear_page. run_script.
  rewrite Hp, bool_decide_eq_true_2 by eauto. step_script.
  rewrite Hp. destruct po as [p|]; step_script; rewrite Ht; reflexivity.
Qed.

Lemma script_run_processor_present
    (w : World) (po : option Processor) (t0 : Instant) :
  session_state w !! "processor" = Some (VProcessor po) ->
  session_state w !! "start_time" = Some (VInstant t0) ->
  script_run env w =
    (Rerun,
     {| session_state := session_state w; constructions := constructions w;
        threads := threads w; clock_reads := S (clock_reads w);
        polls := polls_after po w; presses := S (presses w);
        page := page_until_total env po w
                ++ page_from_duration env (polled_frame env po w)
                     (clock env (clock_reads w) - t0)%Q
                     (pressed env (presses w)) |}).
Proof.
  intros Hp Ht. unfold script_run, main, clear_page. run_script.
  rewrite Hp, bool_decide_eq_true_2 by eauto. step_script.
  rewrite Hp.
  destruct po as [p|]; step_script; rewrite Ht; step_script;
    rewrite create_visualizations_run; step_script;
    unfold page_until_total, page_from_duration, recent_packets,
      polled_frame;
    match goal with
    | |- context [0 <? length ?d] => destruct (0 <? length d)
    end;
    step_script; destruct (pressed env (presses w)); step_script;
    do 2 f_equal; rewrite <- ?app_assoc; reflexivity.
Qed.

Lemma script_run_processor_ill_typed (w : World) (t : Instant) :
  session_state w !! "processor" = Some (VInstant t) ->
  script_run env w =
    (Raised (AttributeError "get_dataframe"),
     {| session_state := session_state w; constructions := constructions w;
        threads := threads w; clock_reads := clock_reads w;
        polls := polls w; presses := presses w;
        page := [SetPageConfig "Network Traffic Analysis" "wide";
                 Title "Real-time Network Traffic Analysis";
                 Columns 2] |}).
Proof.
  intros Hp. unfold script_run, main, clear_page. run_script.
  rewrite Hp, bool_decide_eq_true_2 by eauto. step_script.
  rewrite Hp. reflexivity.
Qed.

Lemma script_run_start_time_ill_typed
    (w : World) (po q : option Processor) :
  session_state w !! "processor" = Some (VProcessor po) ->
  session_state w !! "start_time" = Some (VProcessor q) ->
  script_run env w =
    (Raised TypeError,
     {| session_state := session_state w; constructions := constructions w;
        threads := threads w; clock_reads := S (clock_reads w);
        polls := polls_after po w; presses := presses w;
        page := page_until_total env po w |}).
Proof.
  intros Hp Ht. unfold script_run, main, clear_page. run_script.
  rewrite Hp, bool_decide_eq_true_2 by eauto. step_script.
  rewrite Hp. destruct po as [p|]; step_script; rewrite Ht; reflexivity.
Qed.

(** The five ways a run can go, by what the session state holds. *)
Ltac run_cases w Hp Ht :=
  destruct (session_state w !! "processor") as [[?po|?t]|] eqn:Hp;
  [ destruct (session_state w !! "start_time") as [[?q|?t0]|] eqn:Ht;
    [ rewrite (script_run_start_time_ill_typed w _ _ Hp Ht)
    | rewrite (script_run_processor_present w _ _ Hp Ht)
    | rewrite (script_run_without_start_time w _ Hp Ht) ]
  | rewrite (script_run_processor_ill_typed w _ Hp)
  | rewrite (script_run_fresh env w Hp) ].

(** X1: A run with a processor entry but no start time fails at the duration:
    it raises [AttributeError] once the total is on the page, shows no
    chart and no table, and builds nothing. *)
Theorem run_without_start_time_raises (w : World) (po : option Processor) :
  session_state w !! "processor" = Some (VProcessor po) ->
  session_state w !! "start_time" = None ->
  let w' := snd (script_run env w) in
  fst (script_run env w) = Raised (AttributeError "start_time") /\
  metric_of "Total Packets" (page w')
    = Some (MCount (length (polled_frame env po w))) /\
  metric_of "Capture Duration" (page w') = None /\
  charts_of (page w') = [] /\
  tables_of (page w') = [] /\
  session_state w' = session_state w /\
  constructions w' = constructions w /\
  threads w' = threads w.
Proof.
  intros Hp Ht. cbv zeta.
  rewrite (script_run_without_start_time w po Hp Ht).
  cbn [fst snd page session_state constructions threads].
  unfold page_until_total. destruct po; repeat split; reflexivity.
Qed.

(** X2: A run that finds [None] under ['processor'] does not start a capture
    again: it shows the warning once, a total of 0 and the note, polls no
    processor, builds none and starts no thread, and ends in the rerun. *)
Theorem run_with_none_processor_warns (w : World) (t0 : Instant) :
  session_state w !! "processor" = Some (VProcessor None) ->
  session_state w !! "start_time" = Some (VInstant t0) ->
  let w' := snd (script_run env w) in
  fst (script_run env w) = Rerun /\
  List.filter is_warning (page w')
    = [Warning "Packet processor is not initialized."] /\
  metric_of "Total Packets" (page w') = Some (MCount 0) /\
  In (Info "No data to visualize.") (page w') /\
  charts_of (page w') = [] /\
  tables_of (page w') = [] /\
  polls w' = polls w /\
  constructions w' = constructions w /\
  threads w' = threads w /\
  session_state w' = session_state w.
Proof.
  intros Hp Ht. cbv zeta.
  rewrite (script_run_processor_present w None t0 Hp Ht).
  cbn [fst snd page session_state constructions threads polls polls_after].
  unfold page_until_total, page_from_duration. cbn.
  destruct (pressed env (presses w)); cbn; auto 15.
Qed.

(** X3: A run never falls off the end of the script: it ends in the rerun or
    it raises; and it ends in the rerun exactly when the session state has
    no processor entry yet, or has one together with a start time. *)
Theorem run_ends_in_rerun_iff (w : World) :
  (forall u, fst (script_run env w) <> Returned u) /\
  (fst (script_run env w) = Rerun <->
   session_state w !! "processor" = None \/
   ((exists po, session_state w !! "processor" = Some (VProcessor po)) /\
    (exists t0, session_state w !! "start_time" = Some (VInstant t0)))).
Proof.
  run_cases w Hp Ht; cbn [fst]; (split; [discriminate|]); split;
    try discriminate; eauto;
    intros [Hn|[[po' Hp'] [t0' Ht']]]; congruence.
Qed.

(** X4: Pressing the button skips the two-second sleep and nothing else: a run
    that ends in the rerun has the button as its last element when it was
    pressed and the sleep after the button when it was not. *)
Theorem sleep_only_without_press (w : World) :
  fst (script_run env w) = Rerun ->
  let pg := page (snd (script_run env w)) in
  presses (snd (script_run env w)) = S (presses w) /\
  (pressed env (presses w) = true ->
   exists before, pg = before ++ [Button "Refresh Data"] /\
                  ~ In (Sleep 2) pg) /\
  (pressed env (presses w) = false ->
   exists before, pg = before ++ [Button "Refresh Data"; Sleep 2]).
Proof.
  cbv zeta. run_cases w Hp Ht; cbn [fst snd page presses]; try discriminate;
    intros _; (split; [reflexivity|]).
  - split; intros Hc; rewrite Hc.
    + eexists. split.
      * unfold page_from_duration. rewrite !app_assoc, app_nil_r.
        reflexivity.
      * unfold page_until_total, page_from_duration, visualization_elements,
          recent_packets.
        rewrite !in_app_iff.
        destruct po, (length (polled_frame env _ w) =? 0),
          (0 <? length (frame_after env (polled_frame env _ w)));
          cbn; intuition discriminate.
    + eexists. unfold page_from_duration.
      rewrite !app_assoc. rewrite <- (app_assoc _ [Button "Refresh Data"]).
      reflexivity.
  - split; intros Hc; rewrite Hc.
    + eexists. split.
      * unfold page_for. rewrite !app_assoc, app_nil_r. reflexivity.
      * unfold page_for, visualization_elements, recent_packets.
        rewrite !in_app_iff.
        match goal with
        | |- context [frame_at env ?p ?n] =>
            destruct (length (frame_at env p n) =? 0),
              (0 <? length (frame_after env (frame_at env p n)))
        end; cbn; intuition discriminate.
    + eexists. unfold page_for.
      rewrite !app_assoc. rewrite <- (app_assoc _ [Button "Refresh Data"]).
      reflexivity.
Qed.

Lemma continues_same_session (w w' : World) :
  session_state w' = session_state w ->
  constructions w' = constructions w ->
  threads w' = threads w ->
  clock_reads w <= clock_reads w' ->
  polls w <= polls w' ->
  presses w <= presses w' ->
  continues w w'.
Proof.
  intros Hs Hc Ht Hk Hp Hb.
  split; rewrite ?Hs, ?Hc, ?Ht; auto; exists []; symmetry; apply app_nil_r.
Qed.

Lemma polls_after_grows (po : option Processor) (w : World) :
  polls w <= polls_after po w.
Proof. destruct po; cbn; lia. Qed.

(** X5: Whatever the session state holds, a run loses nothing: every key stays,
    the processor entry keeps its value, entries other than the two of the
    script are untouched, and no construction or thread goes away. *)
Theorem run_continues_world (w : World) :
  continues w (snd (script_run env w)).
Proof.
  run_cases w Hp Ht; cbn [snd];
    try solve
      [apply continues_same_session;
       cbn [session_state constructions threads clock_reads polls presses];
       first [reflexivity | lia | apply polls_after_grows]].
  split;
    cbn [session_state constructions threads clock_reads polls presses];
    try lia; eauto.
  - intros k Hk. destruct (decide (k = "start_time")) as [->|Hne1].
    + rewrite lookup_insert_eq. eauto.
    + rewrite lookup_insert_ne by congruence.
      destruct (decide (k = "processor")) as [->|Hne2].
      * rewrite lookup_insert_eq. eauto.
      * rewrite lookup_insert_ne by congruence. exact Hk.
  - intros v Hv. congruence.
  - intros k Hk1 Hk2. rewrite !lookup_insert_ne by congruence. reflexivity.
Qed.

Lemma page_from_duration_shape (df : DataFrame) (d : Q) (click : bool) :
  let pg := page_from_duration env df d click in
  length (charts_of pg) = (if length df =? 0 then 0 else 3) /\
  (length df = 0 ->
   tables_of pg = [] /\ In (Info "No data to visualize.") pg) /\
  (0 < length df ->
   exists t, tables_of pg = [t] /\ length t = Nat.min 10 (length df)).
Proof.
  cbv zeta. unfold page_from_duration, visualization_elements,
    recent_packets.
  rewrite length_frame_after.
  destruct (length df) as [|k] eqn:Hlen; cbn [Nat.eqb Nat.ltb Nat.leb].
  - split; [destruct click; reflexivity|]. split; [|lia].
    intros _. split; [destruct click; reflexivity|]. cbn. auto.
  - split; [destruct click; reflexivity|]. split; [lia|].
    intros _. eexists. split; [destruct click; reflexivity|].
    rewrite length_map, lastn_length, length_frame_after. lia.
Qed.

(** X12: On the page of every run that ends in the rerun the elements agree
    with the total shown: with a total of 0 there is the note, no chart
    and no table; with a positive total there are three charts and one
    table of min(10, total) rows. *)
Theorem page_agrees_with_total (w : World) :
  fst (script_run env w) = Rerun ->
  let pg := page (snd (script_run env w)) in
  exists c,
    metric_of "Total Packets" pg = Some (MCount c) /\
    length (charts_of pg) = (if c =? 0 then 0 else 3) /\
    (c = 0 -> tables_of pg = [] /\ In (Info "No data to visualize.") pg) /\
    (0 < c -> exists t, tables_of pg = [t] /\ length t = Nat.min 10 c).
Proof.
  cbv zeta. run_cases w Hp Ht; cbn [fst snd page]; try discriminate;
    intros _.
  - destruct (page_from_duration_shape (polled_frame env po w)
                (clock env (clock_reads w) - t0)%Q
                (pressed env (presses w))) as (Hc & H0 & Hpos).
    cbv zeta in *. exists (length (polled_frame env po w)).
    unfold page_until_total.
    rewrite !charts_of_app, !tables_of_app.
    split; [destruct po; reflexivity|].
    split; [destruct po; exact Hc|]. split.
    + intros Hz. destruct (H0 Hz) as [Ht0 Hi]. split.
      * destruct po; cbn; exact Ht0.
      * rewrite !in_app_iff. auto.
    + intros Hz. destruct po; cbn; apply Hpos, Hz.
  - match goal with
    | |- context [page_for env ?df ?d ?c] =>
        destruct (page_from_duration_shape df d c) as (Hc & H0 & Hpos);
        exists (length df);
        change (page_for env df d c)
          with ([SetPageConfig "Network Traffic Analysis" "wide";
                 Title "Real-time Network Traffic Analysis";
                 Columns 2;
                 Metric 1 "Total Packets" (MCount (length df))]
                ++ page_from_duration env df d c)
    end.
    cbv zeta in *. rewrite charts_of_app, tables_of_app.
    split; [reflexivity|]. split; [exact Hc|]. split.
    + intros Hz. destruct (H0 Hz) as [Ht0 Hi]. split; [exact Ht0|].
      apply in_or_app. right. exact Hi.
    + exact Hpos.
Qed.

End OtherRuns.

(** X6: Two calls of [start_packet_capture] in a row build two processors and
    start two daemon capture threads, one for each: the function itself
    keeps no single engine; and it leaves the session state, the page and
    the counters alone. *)
Theorem start_packet_capture_twice (w : World) :
  exists p1 p2 w1 w2,
    start_packet_capture w = (Returned (Some p1), w1) /\
    start_packet_capture w1 = (Returned (Some p2), w2) /\
    p1 <> p2 /\
    constructions w2 =
      constructions w ++ [{| ctor_args := []; made := p1 |};
                          {| ctor_args := []; made := p2 |}] /\
    threads w2 =
      threads w ++ [{| target := capture_packets_of p1; daemon := true |};
                    {| target := capture_packets_of p2; daemon := true |}] /\
    session_state w2 = session_state w /\
    page w2 = page w /\
    clock_reads w2 = clock_reads w /\ polls w2 = polls w.
Proof.
  do 4 eexists. unfold start_packet_capture. run_script.
  split; [reflexivity|]. split; [reflexivity|].
  split.
  - intros H. injection H as H. rewrite length_app in H. cbn in H. lia.
  - step_script. repeat split; rewrite <- ?app_assoc; reflexivity.
Qed.


(** ** Counting *)

Section Counting.

Context {K : Type} `{EqDecision K}.

Lemma weight_cons (k : K) (e : K * nat) (acc : list (K * nat)) :
  weight k (e :: acc) =
    (if bool_decide (fst e = k) then snd e else 0) + weight k acc.
Proof.
  unfold weight. cbn [List.filter].
  destruct (bool_decide (fst e = k)); reflexivity.
Qed.

Lemma occurrences_cons (k y : K) (l : list K) :
  occurrences k (y :: l) =
    (if bool_decide (y = k) then 1 else 0) + occurrences k l.
Proof.
  unfold occurrences. cbn [List.filter].
  destruct (bool_decide (y = k)); reflexivity.
Qed.

Lemma weight_absent (k : K) (acc : list (K * nat)) :
  ~ In k (map fst acc) -> weight k acc = 0.
Proof.
  induction acc as [|e acc IH]; [reflexivity|].
  intros Hk. rewrite weight_cons. cbn in Hk.
  rewrite bool_decide_eq_false_2 by tauto. apply IH. tauto.
Qed.

Lemma weight_entry (k : K) (n : nat) (acc : list (K * nat)) :
  List.NoDup (map fst acc) -> In (k, n) acc -> weight k acc = n.
Proof.
  induction acc as [|e acc IH]; [intros _ []|].
  intros Hnd Hin. apply NoDup_cons_iff in Hnd as [Hfresh Hnd].
  rewrite weight_cons. destruct Hin as [->|Hin].
  - cbn [fst snd]. rewrite bool_decide_eq_true_2 by reflexivity.
    rewrite weight_absent by exact Hfresh. lia.
  - rewrite bool_decide_eq_false_2.
    + apply IH; assumption.
    + intros <-. apply Hfresh. apply (in_map fst) in Hin. exact Hin.
Qed.

Lemma entry_of_key (k : K) (acc : list (K * nat)) :
  In k (map fst acc) -> exists n, In (k, n) acc.
Proof.
  intros Hin. apply in_map_iff in Hin as ([k' n] & <- & Hin). eauto.
Qed.

Lemma weight_permutation (k : K) (a b : list (K * nat)) :
  Permutation a b -> weight k a = weight k b.
Proof.
  induction 1 as [|e a b _ IH|e f a|a b c _ IH1 _ IH2].
  - reflexivity.
  - rewrite !weight_cons, IH. reflexivity.
  - rewrite !weight_cons. lia.
  - congruence.
Qed.

End Counting.

Lemma list_sum_permutation (a b : list nat) :
  Permutation a b -> list_sum a = list_sum b.
Proof.
  induction 1 as [|x a b _ IH|x y a|a b c _ IH1 _ IH2].
  - reflexivity.
  - cbn [list_sum fold_right]. fold (list_sum a) (list_sum b). lia.
  - cbn [list_sum fold_right]. lia.
  - congruence.
Qed.

Lemma sorted_app_le {A} (R : A -> A -> Prop) (l1 l2 : list A) :
  StronglySorted R (l1 ++ l2) ->
  forall a b, In a l1 -> In b l2 -> R a b.
Proof.
  induction l1 as [|x l1 IH]; [intros _ a b []|].
  cbn. intros Hs a b [<-|Ha] Hb.
  - apply StronglySorted_inv in Hs as [_ Hall].
    rewrite List.Forall_forall in Hall. apply Hall.
    apply in_or_app. right. exact Hb.
  - apply StronglySorted_inv in Hs as [Hs _]. apply (IH Hs); assumption.
Qed.

Lemma in_firstn {A} (n : nat) (l : list A) (y : A) :
  In y (firstn n l) -> In y l.
Proof.
  intros Hy. rewrite <- (firstn_skipn n l). apply in_or_app. left. exact Hy.
Qed.

Lemma sorted_firstn {A} (R : A -> A -> Prop) (n : nat) (l : list A) :
  StronglySorted R l -> StronglySorted R (firstn n l).
Proof.
  revert n. induction l as [|x l IH]; intros n Hs.
  - destruct n; constructor.
  - destruct n as [|n]; [constructor|].
    apply StronglySorted_inv in Hs as [Hs Hall]. cbn. constructor.
    + apply IH. exact Hs.
    + rewrite List.Forall_forall in *. intros y Hy. apply Hall.
      apply (in_firstn n l y Hy).
Qed.

(** *** [value_counts] *)

Lemma weight_bump (x y : string) (acc : list (string * nat)) :
  weight y (bump x acc) =
    (if bool_decide (x = y) then 1 else 0) + weight y acc.
Proof.
  induction acc as [|[z n] acc IH].
  - cbn [bump]. rewrite weight_cons. reflexivity.
  - cbn [bump]. destruct (String.eqb_spec x z) as [->|Hxz].
    + rewrite !weight_cons. cbn [fst snd].
      destruct (bool_decide (z = y)); lia.
    + rewrite !weight_cons, IH. lia.
Qed.

Lemma keys_bump (x k : string) (acc : list (string * nat)) :
  In k (map fst (bump x acc)) <-> k = x \/ In k (map fst acc).
Proof.
  induction acc as [|[z n] acc IH].
  - cbn. intuition congruence.
  - cbn [bump]. destruct (String.eqb_spec x z) as [->|Hxz].
    + cbn. intuition congruence.
    + cbn [map fst In]. rewrite IH. intuition congruence.
Qed.

Lemma nodup_bump (x : string) (acc : list (string * nat)) :
  List.NoDup (map fst acc) -> List.NoDup (map fst (bump x acc)).
Proof.
  induction acc as [|[z n] acc IH]; intros Hnd.
  - cbn. constructor; [intros []|constructor].
  - cbn [bump]. destruct (String.eqb_spec x z) as [->|Hxz]; [exact Hnd|].
    cbn [map fst] in *. apply NoDup_cons_iff in Hnd as [Hz Hnd].
    apply NoDup_cons_iff. split; [|apply IH; exact Hnd].
    rewrite keys_bump. intuition congruence.
Qed.

Lemma sum_bump (x : string) (acc : list (string * nat)) :
  list_sum (map snd (bump x acc)) = S (list_sum (map snd acc)).
Proof.
  induction acc as [|[z n] acc IH]; [reflexivity|].
  cbn [bump]. destruct (String.eqb x z); cbn [map snd list_sum fold_right].
  - reflexivity.
  - fold (list_sum (map snd (bump x acc))). rewrite IH.
    fold (list_sum (map snd acc)). lia.
Qed.

Lemma tally_from (l : list string) (acc : list (string * nat)) :
  let t := fold_left (fun a x => bump x a) l acc in
  (forall y, weight y t = weight y acc + occurrences y l) /\
  (forall k, In k (map fst t) <-> In k (map fst acc) \/ In k l) /\
  (List.NoDup (map fst acc) -> List.NoDup (map fst t)) /\
  list_sum (map snd t) = list_sum (map snd acc) + length l.
Proof.
  revert acc. induction l as [|x l IH]; intros acc; cbn [fold_left].
  - cbv zeta. repeat split; try tauto; cbn; try lia.
    intros [H|[]]. exact H.
  - destruct (IH (bump x acc)) as (Hw & Hk & Hn & Hs). cbv zeta.
    split; [|split; [|split]].
    + intros y. rewrite Hw, weight_bump, occurrences_cons. lia.
    + intros k. rewrite Hk, keys_bump. cbn [In]. intuition congruence.
    + intros Hnd. apply Hn, nodup_bump, Hnd.
    + rewrite Hs, sum_bump. cbn [length]. lia.
Qed.

Lemma insert_desc_permutation (e : string * nat) (l : list (string * nat)) :
  Permutation (insert_desc e l) (e :: l).
Proof.
  induction l as [|f l IH]; [reflexivity|].
  cbn [insert_desc]. destruct (snd f <=? snd e); [reflexivity|].
  rewrite IH. apply perm_swap.
Qed.

Lemma insert_desc_sorted (e : string * nat) (l : list (string * nat)) :
  Sorted by_falling_count l -> Sorted by_falling_count (insert_desc e l).
Proof.
  induction l as [|f l IH]; intros Hs.
  - repeat constructor.
  - cbn [insert_desc]. destruct (Nat.leb_spec (snd f) (snd e)) as [Hle|Hlt].
    + constructor; [exact Hs|]. constructor. exact Hle.
    + apply Sorted_inv in Hs as [Hs Hhd]. constructor; [apply IH, Hs|].
      destruct l as [|g l]; cbn [insert_desc].
      * constructor. unfold by_falling_count. lia.
      * destruct (snd g <=? snd e); constructor.
        -- unfold by_falling_count. lia.
        -- apply HdRel_inv in Hhd. exact Hhd.
Qed.

Lemma sort_desc_permutation (l : list (string * nat)) :
  Permutation (fold_right insert_desc [] l) l.
Proof.
  induction l as [|e l IH]; [reflexivity|].
  cbn [fold_right]. rewrite insert_desc_permutation, IH. reflexivity.
Qed.

Lemma sort_desc_sorted (l : list (string * nat)) :
  StronglySorted by_falling_count (fold_right insert_desc [] l).
Proof.
  apply Sorted_StronglySorted.
  - intros a b c Hab Hbc. unfold by_falling_count in *. lia.
  - induction l as [|e l IH]; [constructor|].
    cbn [fold_right]. apply insert_desc_sorted, IH.
Qed.

(** What [value_counts] returns: the distinct values, each with the number
    of its occurrences, by falling count; the counts add up to the length
    of the column. *)
Lemma value_counts_spec (l : list string) :
  StronglySorted by_falling_count (value_counts l) /\
  List.NoDup (map fst (value_counts l)) /\
  list_sum (map snd (value_counts l)) = length l /\
  (forall x, In x (map fst (value_counts l)) <-> In x l) /\
  (forall x n, In (x, n) (value_counts l) -> n = occurrences x l).
Proof.
  destruct (tally_from l []) as (Hw & Hk & Hn & Hs). cbv zeta in *.
  fold (tally l) in *.
  assert (Hp : Permutation (value_counts l) (tally l))
    by apply sort_desc_permutation.
  assert (Hnd : List.NoDup (map fst (value_counts l))).
  { apply (Permutation_NoDup (l := map fst (tally l))).
    - symmetry. apply Permutation_map, Hp.
    - apply Hn. constructor. }
  split; [apply sort_desc_sorted|]. split; [exact Hnd|].
  split; [|split].
  - rewrite (list_sum_permutation _ (map snd (tally l)))
      by apply Permutation_map, Hp.
    rewrite Hs. reflexivity.
  - intros x. split; intros Hx.
    + assert (Ht : In x (map fst (tally l)))
        by (eapply Permutation_in; [apply Permutation_map, Hp|exact Hx]).
      apply Hk in Ht as [[]|Ht]. exact Ht.
    + assert (Ht : In x (map fst (tally l))) by (apply Hk; right; exact Hx).
      eapply Permutation_in;
        [symmetry; apply Permutation_map, Hp|exact Ht].
  - intros x n Hin.
    rewrite <- (weight_entry x n (value_counts l) Hnd Hin).
    rewrite (weight_permutation x _ _ Hp), Hw. reflexivity.
Qed.

(** *** [groupby(...).size()] *)

Lemma weight_bump_sorted (k y : Z) (acc : list (Z * nat)) :
  weight y (bump_sorted k acc) =
    (if bool_decide (k = y) then 1 else 0) + weight y acc.
Proof.
  induction acc as [|[j n] acc IH].
  - cbn [bump_sorted]. rewrite weight_cons. reflexivity.
  - cbn [bump_sorted]. destruct (Z.ltb_spec k j) as [Hlt|Hge].
    + rewrite (weight_cons y (k, 1)). reflexivity.
    + destruct (Z.eqb_spec k j) as [->|Hne].
      * rewrite !weight_cons. cbn [fst snd].
        destruct (bool_decide (j = y)); lia.
      * rewrite !weight_cons, IH. lia.
Qed.

Lemma keys_bump_sorted (k j : Z) (acc : list (Z * nat)) :
  In j (map fst (bump_sorted k acc)) <-> j = k \/ In j (map fst acc).
Proof.
  induction acc as [|[i n] acc IH].
  - cbn. intuition congruence.
  - cbn [bump_sorted]. destruct (k <? i)%Z.
    + cbn. intuition congruence.
    + destruct (Z.eqb_spec k i) as [->|Hne].
      * cbn. intuition congruence.
      * cbn [map fst In]. rewrite IH. intuition congruence.
Qed.

Lemma sum_bump_sorted (k : Z) (acc : list (Z * nat)) :
  list_sum (map snd (bump_sorted k acc)) = S (list_sum (map snd acc)).
Proof.
  induction acc as [|[j n] acc IH]; [reflexivity|].
  cbn [bump_sorted]. destruct (k <? j)%Z; [reflexivity|].
  destruct (k =? j)%Z; cbn [map snd list_sum fold_right].
  - reflexivity.
  - fold (list_sum (map snd (bump_sorted k acc))). rewrite IH.
    fold (list_sum (map snd acc)). lia.
Qed.

Lemma sorted_bump_sorted (k : Z) (acc : list (Z * nat)) :
  Sorted Z.lt (map fst acc) -> Sorted Z.lt (map fst (bump_sorted k acc)).
Proof.
  induction acc as [|[j n] acc IH]; intros Hs.
  - repeat constructor.
  - cbn [bump_sorted]. destruct (Z.ltb_spec k j) as [Hlt|Hge].
    + cbn [map fst]. constructor; [exact Hs|]. constructor. exact Hlt.
    + destruct (Z.eqb_spec k j) as [->|Hne]; [exact Hs|].
      cbn [map fst] in *. apply Sorted_inv in Hs as [Hs Hhd].
      constructor; [apply IH, Hs|].
      destruct acc as [|[i m] acc]; cbn [bump_sorted map fst].
      * constructor. lia.
      * apply HdRel_inv in Hhd. cbn [map fst] in Hhd.
        destruct (k <? i)%Z; cbn [map fst]; [constructor; lia|].
        destruct (k =? i)%Z; cbn [map fst]; constructor; exact Hhd.
Qed.

Lemma groupby_from (keys : list Z) (acc : list (Z * nat)) :
  let g := fold_left (fun a k => bump_sorted k a) keys acc in
  (forall y, weight y g = weight y acc + occurrences y keys) /\
  (forall k, In k (map fst g) <-> In k (map fst acc) \/ In k keys) /\
  (Sorted Z.lt (map fst acc) -> Sorted Z.lt (map fst g)) /\
  list_sum (map snd g) = list_sum (map snd acc) + length keys.
Proof.
  revert acc. induction keys as [|x l IH]; intros acc; cbn [fold_left].
  - cbv zeta. repeat split; try tauto; cbn; try lia.
    intros [H|[]]. exact H.
  - destruct (IH (bump_sorted x acc)) as (Hw & Hk & Hn & Hs). cbv zeta.
    split; [|split; [|split]].
    + intros y. rewrite Hw, weight_bump_sorted, occurrences_cons. lia.
    + intros k. rewrite Hk, keys_bump_sorted. cbn [In].
      intuition congruence.
    + intros Hsorted. apply Hn, sorted_bump_sorted, Hsorted.
    + rewrite Hs, sum_bump_sorted. cbn [length]. lia.
Qed.

Lemma ascending_nodup (l : list Z) :
  StronglySorted Z.lt l -> List.NoDup l.
Proof.
  induction 1 as [|x l _ IH Hall]; constructor; [|exact IH].
  intros Hin. rewrite List.Forall_forall in Hall.
  specialize (Hall x Hin). lia.
Qed.

(** What [groupby(...).size()] returns: the distinct keys in rising order,
    each with the number of rows under it; the sizes add up to the number
    of rows. *)
Lemma groupby_size_spec (keys : list Z) :
  StronglySorted Z.lt (map fst (groupby_size keys)) /\
  list_sum (map snd (groupby_size keys)) = length keys /\
  (forall k, In k (map fst (groupby_size keys)) <-> In k keys) /\
  (forall k n, In (k, n) (groupby_size keys) -> n = occurrences k keys).
Proof.
  destruct (groupby_from keys []) as (Hw & Hk & Hn & Hs). cbv zeta in *.
  fold (groupby_size keys) in *.
  assert (Hsorted : StronglySorted Z.lt (map fst (groupby_size keys))).
  { apply Sorted_StronglySorted.
    - intros a b c Hab Hbc. lia.
    - apply Hn. constructor. }
  split; [exact Hsorted|]. split; [exact Hs|]. split.
  - intros k. rewrite Hk. cbn. tauto.
  - intros k n Hin.
    rewrite <- (weight_entry k n (groupby_size keys)
                  (ascending_nodup _ Hsorted) Hin).
    rewrite Hw. reflexivity.
Qed.

Lemma combine_fst_snd {A B} (l : list (A * B)) :
  combine (map fst l) (map snd l) = l.
Proof.
  induction l as [|[a b] l IH]; [reflexivity|]. cbn. rewrite IH. reflexivity.
Qed.

Lemma falling_counts {K} (l : list (K * nat)) :
  StronglySorted by_falling_count l -> StronglySorted ge (map snd l).
Proof.
  induction 1 as [|e l _ IH Hall]; cbn; constructor; [exact IH|].
  rewrite List.Forall_forall in *. intros n Hn.
  apply in_map_iff in Hn as (f & <- & Hf). apply (Hall f Hf).
Qed.

Lemma floor_S_bucket (ns : Z) :
  (floor_S ns <= ns < floor_S ns + 1000000000)%Z /\
  (floor_S ns mod 1000000000 = 0)%Z.
Proof.
  unfold floor_S.
  pose proof (Z.mod_pos_bound ns 1000000000 eq_refl) as Hb.
  split; [lia|].
  rewrite Zminus_mod_idemp_r. rewrite Z.sub_diag. reflexivity.
Qed.

(** ** What the charts show *)

(** X7: The pie has one slice per protocol that occurs in the frame, each as
    large as the number of rows with that protocol, the largest first; the
    slices add up to the number of rows. *)
Theorem protocol_pie_counts (df : DataFrame) :
  let names := figure_names (protocol_pie df) in
  let values := figure_counts (protocol_pie df) in
  length names = length values /\
  list_sum values = length df /\
  List.NoDup names /\
  (forall p, In p names <-> In p (map protocol df)) /\
  (forall p n, In (p, n) (combine names values) ->
     n = occurrences p (map protocol df)) /\
  StronglySorted ge values.
Proof.
  cbv zeta. unfold protocol_pie. cbn [figure_names figure_counts].
  destruct (value_counts_spec (map protocol df))
    as (Hsorted & Hnd & Hsum & Hkeys & Hcount).
  rewrite combine_fst_snd, !length_map in *.
  repeat split; try assumption; try apply Hkeys.
  apply falling_counts, Hsorted.
Qed.

(** X8: The bar chart has at most ten bars, one per source address, each as
    high as the number of rows from that address, the highest first; and
    no address left out has more rows than one that is shown. *)
Theorem top_sources_bar_counts (df : DataFrame) :
  let names := figure_names (top_sources_bar df) in
  let values := figure_counts (top_sources_bar df) in
  length names = length values /\
  length names <= 10 /\
  List.NoDup names /\
  StronglySorted ge values /\
  (forall x n, In (x, n) (combine names values) ->
     n = occurrences x (map source df)) /\
  (forall x n y, In (x, n) (combine names values) ->
     In y (map source df) -> ~ In y names ->
     occurrences y (map source df) <= n).
Proof.
  cbv zeta. unfold top_sources_bar. cbn [figure_names figure_counts].
  destruct (value_counts_spec (map source df))
    as (Hsorted & Hnd & Hsum & Hkeys & Hcount).
  set (vc := value_counts (map source df)) in *.
  rewrite combine_fst_snd, !length_map.
  split; [reflexivity|]. split; [rewrite length_firstn; lia|].
  split; [|split; [|split]].
  - rewrite <- firstn_map.
    rewrite <- (firstn_skipn 10 (map fst vc)) in Hnd.
    apply NoDup_app_remove_r in Hnd. exact Hnd.
  - apply falling_counts, sorted_firstn, Hsorted.
  - intros x n Hin. apply Hcount. apply (in_firstn 10 vc _ Hin).
  - intros x n y Hin Hy Hout.
    apply Hkeys in Hy. apply entry_of_key in Hy as [m Hm].
    rewrite <- (Hcount y m Hm).
    rewrite <- (firstn_skipn 10 vc) in Hm, Hsorted.
    apply in_app_or in Hm as [Hm|Hm].
    + exfalso. apply Hout. apply (in_map fst) in Hm. exact Hm.
    + apply (sorted_app_le _ _ _ Hsorted (x, n) (y, m) Hin Hm).
Qed.

Section ChartFacts.

Variable env : Env.

Lemma datetime_ns_converted (t : Stamp) :
  datetime_ns env (to_datetime env t) = datetime_ns env t.
Proof. reflexivity. Qed.

Lemma seconds_of_converted (df : DataFrame) :
  map (fun r => floor_S (datetime_ns env (timestamp r)))
      (convert_timestamps env df)
  = map (fun r => floor_S (datetime_ns env (timestamp r))) df.
Proof.
  unfold convert_timestamps. rewrite map_map. reflexivity.
Qed.

(** X9: The line chart drawn by [PacketsTimelineChart.render] has one point per
    second in which some row falls, in rising order of time; a second is
    the row's instant cut down to a whole second; the point's height is the
    number of rows of that second, and the heights add up to the number of
    rows. *)
Theorem packets_timeline_counts (df : DataFrame) :
  let fig := packets_timeline env (convert_timestamps env df) in
  let second r := floor_S (datetime_ns env (timestamp r)) in
  length (figure_instants fig) = length (figure_counts fig) /\
  StronglySorted Z.lt (figure_instants fig) /\
  list_sum (figure_counts fig) = length df /\
  (forall k, In k (figure_instants fig) <-> exists r, In r df /\ k = second r) /\
  (forall k n, In (k, n) (combine (figure_instants fig) (figure_counts fig)) ->
     n = occurrences k (map second df)) /\
  (forall r, In r df ->
     In (second r) (figure_instants fig) /\
     (second r <= datetime_ns env (timestamp r) < second r + 1000000000)%Z /\
     (second r mod 1000000000 = 0)%Z).
Proof.
  cbv zeta. unfold packets_timeline. cbn [figure_instants figure_counts].
  rewrite seconds_of_converted.
  set (second := fun r => floor_S (datetime_ns env (timestamp r))).
  destruct (groupby_size_spec (map second df))
    as (Hsorted & Hsum & Hkeys & Hcount).
  rewrite combine_fst_snd, !length_map in *.
  split; [reflexivity|]. split; [exact Hsorted|]. split; [exact Hsum|].
  split; [|split].
  - intros k. rewrite Hkeys, in_map_iff. split.
    + intros (r & <- & Hr). eauto.
    + intros (r & Hr & ->). eauto.
  - exact Hcount.
  - intros r Hr. split.
    + apply Hkeys. apply (in_map second). exact Hr.
    + apply (floor_S_bucket (datetime_ns env (timestamp r))).
Qed.

(** X10: The conversion of the timestamps gets in the way of no chart, and doing
    it twice is doing it once: calling [create_visualizations] again on the
    frame it left draws the same elements and leaves the frame as it is. *)
Theorem create_visualizations_again (df : DataFrame) (w w2 : World) :
  let df1 := frame_after env df in
  fst (create_visualizations env df w) = Returned df1 /\
  fst (create_visualizations env df1 w2) = Returned df1 /\
  page (snd (create_visualizations env df1 w2)) =
    page w2 ++ visualization_elements env df /\
  protocol_pie (convert_timestamps env df) = protocol_pie df /\
  top_sources_bar (convert_timestamps env df) = top_sources_bar df /\
  packets_timeline env (convert_timestamps env df) = packets_timeline env df.
Proof.
  assert (Hidem : convert_timestamps env (convert_timestamps env df)
                  = convert_timestamps env df).
  { unfold convert_timestamps. rewrite map_map. reflexivity. }
  assert (Hpie : protocol_pie (convert_timestamps env df) = protocol_pie df).
  { unfold protocol_pie, convert_timestamps. rewrite map_map. reflexivity. }
  assert (Hbar : top_sources_bar (convert_timestamps env df)
                 = top_sources_bar df).
  { unfold top_sources_bar, convert_timestamps. rewrite map_map.
    reflexivity. }
  assert (Hline : packets_timeline env (convert_timestamps env df)
                  = packets_timeline env df).
  { unfold packets_timeline. rewrite seconds_of_converted. reflexivity. }
  cbv zeta. rewrite !create_visualizations_run. cbn [fst snd page].
  split; [reflexivity|].
  unfold frame_after, visualization_elements.
  destruct (length df =? 0) eqn:Hlen.
  - rewrite Hlen. repeat split; assumption.
  - rewrite length_convert_timestamps, Hlen, Hidem, Hpie, Hbar.
    repeat split; assumption.
Qed.

End ChartFacts.

(** ** The capture thread keeps nothing *)



(** ** Strategies *)

Section StrategyFacts.

Variable env : Env.

Lemma render_all_app (l l' : list Strategy) (df : DataFrame) (w : World) :
  render_all env (l ++ l') df w =
    match render_all env l df w with
    | (Returned df', w') => render_all env l' df' w'
    | (Rerun, w') => (Rerun, w')
    | (Raised e, w') => (Raised e, w')
    end.
Proof.
  revert df w. induction l as [|t l IH]; intros df w.
  - reflexivity.
  - cbn [app render_all]. unfold mbind, M_bind.
    destruct (render env t df w) as [[df'| |e] w']; try reflexivity.
    apply IH.
Qed.

Lemma render_concrete (s : Strategy) (df : DataFrame) (w : World) :
  s <> VisualizationStrategy ->
  exists df' fig,
    render env s df w =
      (Returned df',
       {| session_state := session_state w; constructions := constructions w;
          threads := threads w; clock_reads := clock_reads w;
          polls := polls w; presses := presses w;
          page := page w ++ [PlotlyChart fig true] |}) /\
    length df' = length df.
Proof.
  intros Hs. destruct s; [congruence| | |]; do 2 eexists;
    (split; [reflexivity|]); rewrite ?length_convert_timestamps;
    reflexivity.
Qed.

(** X13: Whatever list of concrete strategies is rendered, every strategy puts
    exactly one chart on the page, in the order of the list, and nothing
    else; the frame keeps its number of rows and the rest of the world is
    as before. *)
Theorem render_all_one_chart_each
    (l : list Strategy) (df : DataFrame) (w : World) :
  ~ In VisualizationStrategy l ->
  exists df' figs,
    fst (render_all env l df w) = Returned df' /\
    length df' = length df /\
    length figs = length l /\
    page (snd (render_all env l df w)) =
      page w ++ map (fun fig => PlotlyChart fig true) figs /\
    session_state (snd (render_all env l df w)) = session_state w /\
    threads (snd (render_all env l df w)) = threads w.
Proof.
  revert df w. induction l as [|s l IH]; intros df w Hl.
  - exists df, []. cbn. rewrite app_nil_r. repeat split; reflexivity.
  - destruct (render_concrete s df w) as (df1 & fig & Hr & Hlen1).
    { intros ->. apply Hl. left. reflexivity. }
    cbn [render_all]. unfold mbind, M_bind. rewrite Hr.
    match goal with
    | |- context [render_all env l df1 ?w1] =>
        destruct (IH df1 w1) as (df' & figs & Hf & Hlen & Hn & Hp & Hs & Ht)
    end.
    { intros Hin. apply Hl. right. exact Hin. }
    exists df', (fig :: figs). cbn [page session_state threads] in *.
    rewrite Hf, Hp, Hs, Ht. cbn [map length].
    rewrite <- app_assoc. repeat split; try reflexivity; congruence.
Qed.

(** X14: A strategy that does not override [render] stops the rendering with
    [NotImplementedError]: the charts of the strategies before it stay on
    the page, those after it are never drawn. *)
Theorem render_all_stops_at_base
    (before after : list Strategy) (df : DataFrame) (w : World) :
  ~ In VisualizationStrategy before ->
  fst (render_all env (before ++ VisualizationStrategy :: after) df w)
    = Raised NotImplementedError /\
  snd (render_all env (before ++ VisualizationStrategy :: after) df w)
    = snd (render_all env before df w) /\
  length (charts_of
            (page (snd (render_all env
                          (before ++ VisualizationStrategy :: after) df w))))
    = length (charts_of (page w)) + length before.
Proof.
  intros Hb.
  destruct (render_all_one_chart_each before df w Hb)
    as (df' & figs & Hf & _ & Hn & Hp & _).
  rewrite render_all_app.
  destruct (render_all env before df w) as [o w'] eqn:Hrun.
  cbn [fst snd] in *. subst o. cbn [render_all render].
  unfold mbind, M_bind, raise. cbn [fst snd].
  split; [reflexivity|]. split; [reflexivity|].
  rewrite Hp, charts_of_app. rewrite length_app. f_equal.
  rewrite <- Hn. clear. induction figs as [|f figs IH]; [reflexivity|].
  cbn. rewrite IH. reflexivity.
Qed.

End StrategyFacts.

(** ** The further properties on the sample data *)

Lemma run_without_start_time_raises_witness :
  fst (script_run Sample.env Worlds.no_start_time)
    = Raised (AttributeError "start_time").
Proof.
  refine (proj1 (run_without_start_time_raises Sample.env
                   Worlds.no_start_time (Some the_processor) _ _)).
  - apply lookup_singleton_eq.
  - apply lookup_singleton_ne. discriminate.
Defined.

Lemma run_with_none_processor_warns_witness :
  List.filter is_warning
    (page (snd (script_run Sample.env Worlds.none_processor)))
    = [Warning "Packet processor is not initialized."].
Proof.
  refine (proj1 (proj2 (run_with_none_processor_warns Sample.env
                          Worlds.none_processor (inject_Z 100) _ _))).
  - cbn [session_state Worlds.none_processor].
    rewrite lookup_insert_ne by discriminate. apply lookup_singleton_eq.
  - apply lookup_insert_eq.
Defined.

Lemma run_ends_in_rerun_iff_witness :
  fst (script_run Sample.env initial_world) = Rerun.
Proof.
  apply (proj2 (run_ends_in_rerun_iff Sample.env initial_world)).
  left. apply lookup_empty.
Defined.

Lemma sleep_only_without_press_witness :
  exists before,
    page (snd (script_run Sample.env initial_world))
      = before ++ [Button "Refresh Data"; Sleep 2].
Proof.
  refine (proj2 (proj2 (sleep_only_without_press Sample.env initial_world
                          _)) _).
  - exact (f_equal fst (script_run_initial Sample.env)).
  - reflexivity.
Defined.

Lemma page_agrees_with_total_witness :
  exists c,
    metric_of "Total Packets"
      (page (snd (script_run Sample.env initial_world))) = Some (MCount c).
Proof.
  destruct (page_agrees_with_total Sample.env initial_world) as (c & Hc & _).
  - exact (f_equal fst (script_run_initial Sample.env)).
  - exists c. exact Hc.
Defined.

Lemma render_all_one_chart_each_witness :
  exists (df' : DataFrame) (figs : list Figure),
    fst (render_all Sample.env [TopSourceIPsBarChart; ProtocolPieChart]
           Sample.raw_frame initial_world) = Returned df' /\
    length figs = 2.
Proof.
  destruct (render_all_one_chart_each Sample.env
              [TopSourceIPsBarChart; ProtocolPieChart]
              Sample.raw_frame initial_world)
    as (df' & figs & Hf & _ & Hn & _).
  - cbn. intuition discriminate.
  - exists df', figs. split; assumption.
Defined.

Lemma render_all_stops_at_base_witness :
  fst (render_all Sample.env
         ([ProtocolPieChart] ++ VisualizationStrategy
            :: [TopSourceIPsBarChart])
         Sample.raw_frame initial_world)
    = Raised NotImplementedError.
Proof.
  refine (proj1 (render_all_stops_at_base Sample.env [ProtocolPieChart]
                   [TopSourceIPsBarChart] Sample.raw_frame initial_world _)).
  cbn. intuition discriminate.
Defined.

Lemma protocol_pie_counts_witness :
  1 = occurrences "TCP" (map protocol Sample.raw_frame).
Proof.
  destruct (protocol_pie_counts Sample.raw_frame) as (_ & _ & _ & _ & H & _).
  apply H. cbn. auto.
Defined.

Lemma top_sources_bar_counts_witness :
  1 = occurrences "10.0.0.2" (map source Sample.raw_frame).
Proof.
  destruct (top_sources_bar_counts Sample.raw_frame)
    as (_ & _ & _ & _ & H & _).
  apply H. cbn. auto.
Defined.

Lemma packets_timeline_counts_witness :
  1 = occurrences 2000000000%Z
        (map (fun r => floor_S (datetime_ns Sample.env (timestamp r)))
           Sample.datetime_frame).
Proof.
  destruct (packets_timeline_counts Sample.env Sample.datetime_frame)
    as (_ & _ & _ & _ & H & _).
  apply H. vm_compute. auto.
Defined.
